(** * MoPyRegtest: a shallow embedding of [mopyregtest/modelicaregressiontest.py]

    The Python class [RegressionTest] is embedded as functions in a state
    and exception monad over an explicit model of the process environment
    (file system, current working directory, standard input and output).
    Python strings are lists of characters, dictionaries are association
    lists in iteration order, and the numeric columns of a data frame are
    lists of exact rationals. *)

From Stdlib Require Import Ascii QArith Qabs Qpower.
From stdpp Require Import gmap strings list.

(** ** Python strings *)

(** A Python [str] is a sequence of code points.  The model keeps the code
    points below 256, one [ascii] each. *)
Definition text : Type := list ascii.

Definition str (s : string) : text := String.list_ascii_of_string s.

Module Py.

(** *** Sequence operations shared by all element types *)

Section sequences.
Context {A : Type} `{!EqDecision A}.

(** [s.startswith(k)] *)
Definition startswith (k s : list A) : bool := bool_decide (k `prefix_of` s).

(** The scan of [str.replace] for a non-empty [k]: left to right, an
    occurrence of [k] at the current position emits [v] and skips the
    occurrence ([skip] counts the characters of it still to pass), any other
    character is copied. *)
Fixpoint replace_from (k v : list A) (skip : nat) (s : list A) : list A :=
  match s with
  | [] => []
  | c :: s' =>
      match skip with
      | S n => replace_from k v n s'
      | O =>
          if startswith k s
          then v ++ replace_from k v (pred (length k)) s'
          else c :: replace_from k v 0 s'
      end
  end.

(** [s.replace(k, v)].  For the empty [k] Python inserts [v] before every
    character and at the end. *)
Definition replace (k v s : list A) : list A :=
  match k with
  | [] => v ++ concat (map (fun c => c :: v) s)
  | _ :: _ => replace_from k v 0 s
  end.

(** [x in s] for strings: [x] occurs in [s] as a contiguous block. *)
Definition occurs (x s : list A) : Prop := exists a b, s = a ++ x ++ b.

Fixpoint occursb (x s : list A) : bool :=
  startswith x s ||
  match s with
  | [] => false
  | _ :: s' => occursb x s'
  end.

(** [s.lstrip(chars)] and [s.rstrip(chars)], [p] deciding membership in
    [chars]. *)
Fixpoint lstrip (p : A -> bool) (s : list A) : list A :=
  match s with
  | [] => []
  | c :: s' => if p c then lstrip p s' else s
  end.

Fixpoint rstrip (p : A -> bool) (s : list A) : list A :=
  match s with
  | [] => []
  | c :: s' =>
      match rstrip p s' with
      | [] => if p c then [] else [c]
      | r => c :: r
      end
  end.

(** [s.split(sep)] for a one-character separator: always at least one
    field. *)
Fixpoint split (sep : A) (s : list A) : list (list A) :=
  match s with
  | [] => [[]]
  | c :: s' =>
      if decide (c = sep) then [] :: split sep s'
      else match split sep s' with
           | f :: fs => (c :: f) :: fs
           | [] => [[c]]
           end
  end.

(** [sep.join(fields)] *)
Fixpoint join (sep : list A) (fields : list (list A)) : list A :=
  match fields with
  | [] => []
  | [f] => f
  | f :: fs => f ++ sep ++ join sep fs
  end.

End sequences.

(** *** Character classes *)

Definition ord (c : ascii) : nat := nat_of_ascii c.

(** [c.isspace()] on the code points below 256. *)
Definition isspace (c : ascii) : bool :=
  let n := ord c in
  ((9 <=? n) && (n <=? 13)) || ((28 <=? n) && (n <=? 32))
  || (n =? 133) || (n =? 160).

(** [c.lower()] on the code points below 256. *)
Definition lower_char (c : ascii) : ascii :=
  let n := ord c in
  if ((65 <=? n) && (n <=? 90))
     || ((192 <=? n) && (n <=? 222) && negb (n =? 215))
  then ascii_of_nat (n + 32) else c.

Definition lower (s : text) : text := map lower_char s.

(** [s.strip()] *)
Definition strip (s : text) : text := rstrip isspace (lstrip isspace s).

Definition is_char (c : ascii) : ascii -> bool := fun d => bool_decide (d = c).

(** [f.readlines()] on the text of a file: every line keeps its newline,
    the last one has none when the text does not end in one. *)
Fixpoint readlines (s : text) : list text :=
  match s with
  | [] => []
  | c :: s' =>
      if bool_decide (c = "010"%char) then [c] :: readlines s'
      else match readlines s' with
           | l :: ls => (c :: l) :: ls
           | [] => [[c]]
           end
  end.

End Py.

(** ** Exceptions and the effect monad *)

(** The exception classes the module can raise, by class. *)
Inductive exn : Type :=
| ValueError
| IndexError
| KeyError (key : text)
| AssertionError
| EOFError
| FileNotFoundError
| FileExistsError
| NotADirectoryError
| IsADirectoryError
| SameFileError.

Inductive outcome (A : Type) : Type :=
| Return (a : A)
| Raise (e : exn).
Arguments Return {A} a.
Arguments Raise {A} e.

(** A Python statement: it runs on a state, ends normally or by an
    exception, and leaves a state behind in both cases (what was mutated
    before a [raise] stays mutated). *)
Definition M (S A : Type) : Type := S -> outcome A * S.

Definition ret {S A} (a : A) : M S A := fun s => (Return a, s).

Definition bind {S A B} (m : M S A) (k : A -> M S B) : M S B :=
  fun s =>
    match m s with
    | (Return a, s') => k a s'
    | (Raise e, s') => (Raise e, s')
    end.

Definition raise {S A} (e : exn) : M S A := fun s => (Raise e, s).

Definition lift_outcome {S A} (o : outcome A) : M S A := fun s => (o, s).

Declare Scope py_scope.
Delimit Scope py_scope with py.
Notation "x <- m ;; k" := (bind m (fun x => k))
  (at level 100, m at next level, right associativity) : py_scope.
Notation "m ;;; k" := (bind m (fun _ => k))
  (at level 100, right associativity) : py_scope.
Local Open Scope py_scope.

(** [for x in xs: body x] *)
Fixpoint for_each {S A} (xs : list A) (body : A -> M S unit) : M S unit :=
  match xs with
  | [] => ret tt
  | x :: xs' => body x ;;; for_each xs' body
  end.

(** ** The process environment *)

(** A path is the list of its components below the root. *)
Definition path : Type := list text.

Inductive pathspec : Type :=
| Absolute (p : path)
| Relative (p : path).

(** [pathlib.Path(p).absolute()] *)
Definition absolute (cwd0 : path) (p : pathspec) : path :=
  match p with
  | Absolute q => q
  | Relative q => cwd0 ++ q
  end.

Definition parent (p : path) : path := removelast p.

(** The components of a relative name such as ["omc/model_import.mos"]. *)
Definition parts (s : text) : path :=
  filter (fun c => c <> [] /\ c <> str ".") (Py.split "/"%char s).

(** [p / s] of pathlib (POSIX flavour): an absolute [s] replaces [p]. *)
Definition joinpath (p : path) (s : text) : path :=
  if Py.startswith (str "/") s then parts s else p ++ parts s.

(** [p.as_posix()] *)
Definition as_posix (p : path) : text :=
  match p with
  | [] => str "/"
  | _ => concat (map (fun c => "/"%char :: c) p)
  end.

(** A directory, or a file with its text as [read()] returns it (newlines
    already translated).  Permissions and links are not modelled. *)
Inductive node : Type :=
| Dir
| File (contents : text).

(** The environment of the process: the file system, the current working
    directory, the lines still to be read from standard input and the
    pieces written to standard output so far. *)
Record World : Type := mkWorld {
  fs : gmap path node;
  cwd : path;
  stdin : list text;
  stdout : list text
}.

Definition with_fs (f : gmap path node) (w : World) : World :=
  mkWorld f (cwd w) (stdin w) (stdout w).
Definition with_cwd (p : path) (w : World) : World :=
  mkWorld (fs w) p (stdin w) (stdout w).
Definition with_stdin (i : list text) (w : World) : World :=
  mkWorld (fs w) (cwd w) i (stdout w).
Definition with_stdout (o : list text) (w : World) : World :=
  mkWorld (fs w) (cwd w) (stdin w) o.

(** What the module takes from its host and from libraries outside the
    repository. *)
Record Host : Type := mkHost {
  (** [platform.system()] *)
  platform_system : text;
  (** [shutil.which(name) != None] *)
  which : text -> bool;
  (** the effect on the file system of [os.system(cmd)], run in the given
      current directory; the exit status is dropped by every caller *)
  os_system : text -> path -> gmap path node -> gmap path node;
  (** [str(p)] of a pathlib path *)
  path_str : path -> text;
  (** [pathlib.Path(__file__).parent.absolute()] *)
  module_dir : path;
  (** [pd.read_csv(filepath_or_buffer=name, delimiter=',')]: the columns by
      name, each with its values *)
  read_csv : text -> World -> outcome (list (text * list Q))
}.

Definition nl : ascii := "010"%char.

(** [print(s)] and [print(s, end="")] *)
Definition print (s : text) : M World unit :=
  fun w => (Return tt, with_stdout (stdout w ++ [s ++ [nl]]) w).
Definition print_noend (s : text) : M World unit :=
  fun w => (Return tt, with_stdout (stdout w ++ [s]) w).

(** [input()] *)
Definition input : M World text :=
  fun w =>
    match stdin w with
    | [] => (Raise EOFError, w)
    | l :: rest => (Return l, with_stdin rest w)
    end.

(** [os.getcwd()] and [os.chdir(p)] *)
Definition getcwd : M World path := fun w => (Return (cwd w), w).

Definition chdir (p : path) : M World unit :=
  fun w =>
    match fs w !! p with
    | Some Dir => (Return tt, with_cwd p w)
    | Some (File _) => (Raise NotADirectoryError, w)
    | None => (Raise FileNotFoundError, w)
    end.

(** [p.exists()] *)
Definition path_exists (p : path) : M World bool :=
  fun w => (Return (bool_decide (is_Some (fs w !! p))), w).

(** [pathlib.Path.mkdir(p)] *)
Definition mkdir (p : path) : M World unit :=
  fun w =>
    match fs w !! p with
    | Some _ => (Raise FileExistsError, w)
    | None =>
        match fs w !! parent p with
        | Some Dir => (Return tt, with_fs (<[p := Dir]> (fs w)) w)
        | Some (File _) => (Raise NotADirectoryError, w)
        | None => (Raise FileNotFoundError, w)
        end
    end.

(** The file system without [p] and everything below it. *)
Definition remove_tree (p : path) (f : gmap path node) : gmap path node :=
  filter (fun kv => ~ p `prefix_of` kv.1) f.

(** [shutil.rmtree(p)] *)
Definition rmtree (p : path) : M World unit :=
  fun w =>
    match fs w !! p with
    | Some Dir => (Return tt, with_fs (remove_tree p (fs w)) w)
    | Some (File _) => (Raise NotADirectoryError, w)
    | None => (Raise FileNotFoundError, w)
    end.

(** [open(p, 'r')], [read()], [close()] *)
Definition read_file (p : path) : M World text :=
  fun w =>
    match fs w !! p with
    | Some (File c) => (Return c, w)
    | Some Dir => (Raise IsADirectoryError, w)
    | None => (Raise FileNotFoundError, w)
    end.

(** [open(p, 'w')], [truncate()], [write(c)], [close()] *)
Definition write_file (p : path) (c : text) : M World unit :=
  fun w =>
    match fs w !! p with
    | Some (File _) => (Return tt, with_fs (<[p := File c]> (fs w)) w)
    | Some Dir => (Raise IsADirectoryError, w)
    | None =>
        match fs w !! parent p with
        | Some Dir => (Return tt, with_fs (<[p := File c]> (fs w)) w)
        | Some (File _) => (Raise NotADirectoryError, w)
        | None => (Raise FileNotFoundError, w)
        end
    end.

(** [shutil.copy(src, dst)]: into [dst] when it is a directory. *)
Definition copy (src dst : path) : M World unit :=
  fun w =>
    let dst' :=
      match fs w !! dst with
      | Some Dir => dst ++ option_list (last src)
      | _ => dst
      end in
    if decide (src = dst') then (Raise SameFileError, w)
    else (c <- read_file src ;; write_file dst' c) w.

(** ** Dictionaries

    A [dict] with string keys, as the list of its items in iteration
    (insertion) order. *)
Definition dict : Type := list (text * text).

(** [d[k] = v]: an existing key keeps its place. *)
Fixpoint dict_set (k v : text) (d : dict) : dict :=
  match d with
  | [] => [(k, v)]
  | (k', v') :: d' =>
      if decide (k' = k) then (k, v) :: d' else (k', v') :: dict_set k v d'
  end.

(** ** Data frames and the numeric comparison *)

(** A data frame as read from a .csv file: the columns in header order,
    each with its values by row.  The values are exact rationals. *)
Definition DataFrame : Type := list (text * list Q).

(** [frame.columns] *)
Definition columns (d : DataFrame) : list text := map fst d.

(** [frame[c].as_matrix()]: the values of the column [c] as an array (the
    pandas of the time; [as_matrix] is gone from pandas 1.0 on), [KeyError]
    when the frame has no such column. *)
Fixpoint getitem (d : DataFrame) (c : text) : outcome (list Q) :=
  match d with
  | [] => Raise (KeyError c)
  | (n, v) :: d' => if decide (n = c) then Return v else getitem d' c
  end.

(** [set(ref.columns).intersection(set(result.columns))], listed in the
    header order of the reference. *)
Definition common_cols (ref_data result_data : DataFrame) : list text :=
  list_intersection (remove_dups (columns ref_data)) (columns result_data).

(** The bound of numpy's almost-equality at [decimal] places:
    [1.5 * 10**(-decimal)], taken exactly.  numpy computes it in double
    precision, where it is rounded, overflows for [decimal] below [-308]
    and is zero from [324] on. *)
Definition tolerance (decimal : Z) : Q := (3 # 2) * (10 # 1) ^ (- decimal).

(** One pair of values passes when [abs(desired - actual)] is below the
    bound. *)
Definition almost_equal (decimal : Z) (actual desired : Q) : bool :=
  negb (Qle_bool (tolerance decimal) (Qabs (desired - actual))).

Fixpoint all_almost_equal (decimal : Z) (actual desired : list Q) : bool :=
  match actual, desired with
  | [], [] => true
  | a :: actual', d :: desired' =>
      almost_equal decimal a d && all_almost_equal decimal actual' desired'
  | _, _ => false
  end.

(** [np.testing.assert_almost_equal(actual, desired, decimal)] on two
    one-dimensional arrays (numpy is outside the repository; this is its
    documented contract): arrays of different shape or with a pair of
    elements at or beyond the bound raise [AssertionError]. *)
Definition assert_almost_equal (actual desired : list Q) (decimal : Z)
  : outcome unit :=
  if all_almost_equal decimal actual desired then Return tt
  else Raise AssertionError.

(** ** The class [RegressionTest] *)

Record RegressionTest : Type := mkRegressionTest {
  template_folder_path : path;
  package_folder_path : path;
  model_in_package : text;
  result_folder_path : path;
  initial_cwd : path;
  tools : list text;
  result_folder_created : bool
}.

Definition with_result_folder_created (b : bool) (t : RegressionTest)
  : RegressionTest :=
  mkRegressionTest (template_folder_path t) (package_folder_path t)
    (model_in_package t) (result_folder_path t) (initial_cwd t) (tools t) b.

(** The state an instance method runs on: the instance and the process
    environment. *)
Record Sys : Type := mkSys {
  self : RegressionTest;
  world : World
}.

Definition get_self : M Sys RegressionTest := fun s => (Return (self s), s).

(** A statement that touches the environment only. *)
Definition in_world {A} (m : M World A) : M Sys A :=
  fun s => let (o, w) := m (world s) in (o, mkSys (self s) w).

Definition set_result_folder_created (b : bool) : M Sys unit :=
  fun s => (Return tt, mkSys (with_result_folder_created b (self s)) (world s)).

Definition quote : ascii := "034"%char.
Definition tab : ascii := "009"%char.

(** Line 233: the last line of the import log, without its leading ['(']
    and trailing [')'] characters, split at the commas into five fields. *)
Definition simulation_options (omc_messages : list text)
  : outcome (text * text * text * text * text) :=
  match last omc_messages with
  | None => Raise IndexError
  | Some l =>
      match Py.split ","%char
              (Py.rstrip (Py.is_char ")"%char)
                 (Py.lstrip (Py.is_char "("%char) l)) with
      | [start_time; stop_time; tol; num_intervals; interval] =>
          Return (start_time, stop_time, tol, num_intervals, interval)
      | _ => Raise ValueError
      end
  end.

(** The loop of lines 80-81 on the text of the file. *)
Definition replace_all (repl_dict : dict) (contents : text) : text :=
  fold_left (fun acc kv => Py.replace kv.1 kv.2 acc) repl_dict contents.

Section methods.
Context (H : Host).

(** [__init__(self, package_folder, model_in_package, result_folder, tool)] *)
Definition init (package_folder : pathspec) (model : text)
    (result_folder : pathspec) (tool : option text) : M World RegressionTest :=
  cwd0 <- getcwd ;;
  ret (mkRegressionTest
         (module_dir H ++ [str "templates"])
         (absolute cwd0 package_folder)
         model
         (absolute cwd0 result_folder)
         cwd0
         match tool with
         | Some t => [t]
         | None => filter (fun tl => which H tl = true) [str "omc"]
         end
         false).

(** The loop of [_ask_confirmation]: [None] when the asks are used up. *)
Fixpoint ask_loop (question : text) (asks : nat) : M World (option bool) :=
  match asks with
  | O => ret None
  | S asks' =>
      print_noend (question ++ str " [yes|no] ") ;;;
      answer_as_str <- input ;;
      if decide (Py.lower (Py.strip answer_as_str) = str "yes")
      then ret (Some true)
      else if decide (Py.lower (Py.strip answer_as_str) = str "no")
      then ret (Some false)
      else ask_loop question asks'
  end.

Definition _ask_confirmation (question : text) (max_asks : nat)
  : M World bool :=
  answer <- ask_loop question max_asks ;;
  match answer with
  | None => raise ValueError
  | Some b => ret b
  end.

Definition _replace_in_file (filename : path) (repl_dict : dict)
  : M World unit :=
  contents <- read_file filename ;;
  write_file filename (replace_all repl_dict contents).

Definition is_windows : bool :=
  bool_decide (platform_system H = str "Windows").

(** The body of the loop of [_run_model] for one tool. *)
Definition run_tool (tool : text) : M Sys unit :=
  t <- get_self ;;
  let tool_executable := if is_windows then tool ++ str ".exe" else tool in
  in_world (print (str "Using simulation tool " ++ tool_executable)) ;;;
  let model_import_template := tool ++ str "/model_import.mos.template" in
  let model_simulate_template := tool ++ str "/model_simulate.mos.template" in
  let model_import_mos := str "model_import.mos" in
  let model_simulate_mos := str "model_simulate.mos" in
  let tool_output := tool ++ str "_output.txt" in
  if decide (tool = str "omc") then
    in_world (
      copy (joinpath (template_folder_path t) model_import_template)
           (joinpath (result_folder_path t) model_import_mos) ;;;
      copy (joinpath (template_folder_path t) model_simulate_template)
           (joinpath (result_folder_path t) model_simulate_mos) ;;;
      let repl_dict := [] in
      let repl_dict :=
        dict_set (str "PACKAGE_FOLDER") (as_posix (package_folder_path t))
          repl_dict in
      let repl_dict :=
        dict_set (str "RESULT_FOLDER") (as_posix (result_folder_path t))
          repl_dict in
      let repl_dict :=
        dict_set (str "MODEL_IN_PACKAGE") (model_in_package t) repl_dict in
      _replace_in_file (joinpath (result_folder_path t) model_import_mos)
        repl_dict ;;;
      (fun w =>
         (Return tt,
          with_fs (os_system H
                     (tool_executable ++ str " " ++ model_import_mos
                        ++ str " > " ++ tool_output)
                     (cwd w) (fs w)) w)) ;;;
      here <- getcwd ;;
      log <- read_file (joinpath here tool_output) ;;
      let omc_messages := Py.readlines log in
      opts <- lift_outcome (simulation_options omc_messages) ;;
      let '(start_time, stop_time, tol, num_intervals, interval) := opts in
      let repl_dict :=
        if is_windows
        then dict_set (str "SIMULATION_BINARY")
               (model_in_package t ++ str ".exe") repl_dict
        else if decide (platform_system H = str "Linux")
        then dict_set (str "SIMULATION_BINARY")
               (str "./" ++ model_in_package t) repl_dict
        else repl_dict in
      let repl_dict := dict_set (str "START_TIME") start_time repl_dict in
      let repl_dict := dict_set (str "STOP_TIME") stop_time repl_dict in
      let repl_dict := dict_set (str "TOLERANCE") tol repl_dict in
      let repl_dict := dict_set (str "NUM_INTERVALS") num_intervals repl_dict in
      _replace_in_file (joinpath (result_folder_path t) model_simulate_mos)
        repl_dict ;;;
      (fun w =>
         (Return tt,
          with_fs (os_system H
                     (tool_executable ++ str " " ++ model_simulate_mos
                        ++ str " >> " ++ tool_output)
                     (cwd w) (fs w)) w)))
  else ret tt.

Definition _run_model : M Sys unit :=
  t <- get_self ;;
  for_each (tools t) run_tool.

Definition _import_and_simulate : M Sys unit :=
  t <- get_self ;;
  in_world (print (str "Simulating model " ++ model_in_package t
                     ++ str " using the simulation tools: "
                     ++ Py.join (str ", ") (tools t))) ;;;
  present <- in_world (path_exists (result_folder_path t)) ;;
  (if negb present
   then in_world (mkdir (result_folder_path t)) ;;;
        set_result_folder_created true
   else ret tt) ;;;
  in_world (chdir (result_folder_path t)) ;;;
  _run_model ;;;
  t' <- get_self ;;
  in_world (chdir (initial_cwd t')) ;;;
  ret tt.

(** The loop of lines 149-151. *)
Definition compare_columns (ref_data result_data : DataFrame)
    (precision : Z) (validated_cols : list text) : M World unit :=
  for_each validated_cols (fun c =>
    print (str "Comparing column " ++ [quote] ++ c ++ [quote]) ;;;
    actual <- lift_outcome (getitem result_data c) ;;
    desired <- lift_outcome (getitem ref_data c) ;;
    lift_outcome (assert_almost_equal actual desired precision)).

(** Lines 143-151: the comparison of the two loaded data frames. *)
Definition compare_frames (ref_data result_data : DataFrame)
    (precision : Z) (validated_cols : list text) : M World unit :=
  let common := common_cols ref_data result_data in
  let validated_cols :=
    match validated_cols with
    | [] => common
    | _ :: _ => validated_cols
    end in
  compare_columns ref_data result_data precision validated_cols.

Definition compare_result (reference_result : text) (precision : Z)
    (validated_cols : list text) : M Sys unit :=
  t <- get_self ;;
  in_world (print (nl :: str "Testing model " ++ model_in_package t)) ;;;
  _import_and_simulate ;;;
  t' <- get_self ;;
  let simulation_result :=
    path_str H (joinpath (result_folder_path t') (model_in_package t'))
      ++ str "_res.csv" in
  in_world (print (str "Comparing simulation result " ++ simulation_result
                     ++ str " and reference " ++ reference_result)) ;;;
  ref_data <- in_world (fun w => (read_csv H reference_result w, w)) ;;
  result_data <- in_world (fun w => (read_csv H simulation_result w, w)) ;;
  in_world (compare_frames ref_data result_data precision validated_cols).

Definition cleanup (ask_confirmation : bool) : M Sys unit :=
  t <- get_self ;;
  if result_folder_created t then
    if ask_confirmation then
      do_delete <- in_world (_ask_confirmation
        ([nl] ++ str "Do you want to delete the folder " ++ [nl; nl; tab]
           ++ path_str H (result_folder_path t) ++ [nl; nl]
           ++ str "and all its subfolders?") 5) ;;
      if (do_delete : bool) then in_world (rmtree (result_folder_path t))
      else ret tt
    else in_world (rmtree (result_folder_path t))
  else
    in_world (print ([nl] ++ str "The result folder " ++ [nl; nl; tab]
                       ++ path_str H (result_folder_path t) ++ [nl; nl]
                       ++ str "was not created by this program. Will not clean up. ")).

End methods.

(** * The vocabulary of the properties *)

(** ** Answers and prompts *)

(** An answer reads as [word] when it is [word] up to the case of its
    letters and up to white space around it. *)
Definition reads_as (word a : text) : Prop :=
  exists ws1 core ws2,
    a = ws1 ++ core ++ ws2 /\
    Forall (fun c => Py.isspace c = true) ws1 /\
    Forall (fun c => Py.isspace c = true) ws2 /\
    Py.lower core = word.

(** An answer that is neither a yes nor a no. *)
Definition invalid (a : text) : Prop :=
  Py.lower (Py.strip a) <> str "yes" /\ Py.lower (Py.strip a) <> str "no".

(** The environment after [n] prompts, with [rest] left to read. *)
Definition asked (question : text) (n : nat) (rest : list text) (w : World)
  : World :=
  mkWorld (fs w) (cwd w) rest
    (stdout w ++ repeat (question ++ str " [yes|no] ") n).

(** ** Frames and phases *)

(** [m] never changes the component [f] of the state, however it ends. *)
Definition preserves {S A X} (f : S -> X) (m : M S A) : Prop :=
  forall s, f (m s).2 = f s.

(** Lines 98-105 of [_import_and_simulate]: up to and including the change
    into the result folder. *)
Definition enter_result_folder : M Sys unit :=
  t <- get_self ;;
  in_world (print (str "Simulating model " ++ model_in_package t
                     ++ str " using the simulation tools: "
                     ++ Py.join (str ", ") (tools t))) ;;;
  present <- in_world (path_exists (result_folder_path t)) ;;
  (if negb present
   then in_world (mkdir (result_folder_path t)) ;;;
        set_result_folder_created true
   else ret tt) ;;;
  in_world (chdir (result_folder_path t)).

(** The environment once line 98 of [_import_and_simulate] has announced
    the run. *)
Definition announced_run (s : Sys) : World :=
  with_stdout
    (stdout (world s)
       ++ [(str "Simulating model " ++ model_in_package (self s)
              ++ str " using the simulation tools: "
              ++ Py.join (str ", ") (tools (self s))) ++ [nl]])
    (world s).

(** [t'] is [t] up to the flag, which may have been set but not unset. *)
Definition same_settings (t t' : RegressionTest) : Prop :=
  t' = t \/ t' = with_result_folder_created true t.

(** The state once line 133 of [compare_result] has announced the test. *)
Definition testing_announced (s : Sys) : Sys :=
  mkSys (self s)
    (with_stdout
       (stdout (world s)
          ++ [(nl :: str "Testing model " ++ model_in_package (self s)) ++ [nl]])
       (world s)).

(** Line 136: the name of the result file of the tool. *)
Definition simulation_result (H : Host) (t : RegressionTest) : text :=
  path_str H (joinpath (result_folder_path t) (model_in_package t))
    ++ str "_res.csv".

(** The environment once line 138 has announced the comparison. *)
Definition comparison_announced (H : Host) (reference_result : text) (s : Sys)
  : World :=
  with_stdout
    (stdout (world s)
       ++ [(str "Comparing simulation result " ++ simulation_result H (self s)
              ++ str " and reference " ++ reference_result) ++ [nl]])
    (world s).

(** Line 248: the command that runs the simulate script of [tool]. *)
Definition simulate_command (H : Host) (tool : text) : text :=
  (if is_windows H then tool ++ str ".exe" else tool)
    ++ str " " ++ str "model_simulate.mos" ++ str " >> "
    ++ tool ++ str "_output.txt".

(** The host [H] with [sys] for what its commands do. *)
Definition with_os_system
    (sys : text -> path -> gmap path node -> gmap path node) (H : Host)
  : Host :=
  mkHost (platform_system H) (which H) sys (path_str H) (module_dir H)
    (read_csv H).

(** Wherever [m] ends by an exception, [m'] does just the same. *)
Definition same_failure {S A} (m m' : M S A) : Prop :=
  forall s e, (m s).1 = Raise e -> m' s = m s.

(** The tools [_run_model] knows how to drive (line 212), which are also
    the candidates looked up on the PATH (line 50). *)
Definition supported_tools : list text := [str "omc"].

(** ** Columns *)

(** The column [c] is present in both frames and within the bound. *)
Definition column_ok (ref_data result_data : DataFrame) (precision : Z)
    (c : text) : bool :=
  match getitem result_data c, getitem ref_data c with
  | Return actual, Return desired => all_almost_equal precision actual desired
  | _, _ => false
  end.



(** The precisions at which the bound that numpy computes in double
    precision, [1.5 * 10.0**(-decimal)], is finite and above zero, as the
    exact bound [tolerance] is at every precision: [10.0**309] overflows
    and [10.0**(-324)] is [0.0]. *)
Definition bound_in_range (decimal : Z) : Prop :=
  (-308 <= decimal <= 323)%Z.

(** How the loop of lines 149-151 ends, the lines it prints aside. *)
Fixpoint columns_outcome (ref_data result_data : DataFrame) (precision : Z)
    (cs : list text) : outcome unit :=
  match cs with
  | [] => Return tt
  | c :: cs' =>
      match getitem result_data c with
      | Raise e => Raise e
      | Return actual =>
          match getitem ref_data c with
          | Raise e => Raise e
          | Return desired =>
              if all_almost_equal precision actual desired
              then columns_outcome ref_data result_data precision cs'
              else Raise AssertionError
          end
      end
  end.

(** Two columns differ by exactly [eps]: row by row they are at most [eps]
    apart, and in some row exactly [eps]. *)
Definition differ_by (eps : Q) (actual desired : list Q) : Prop :=
  Forall2 (fun x y => (Qabs (y - x) <= eps)%Q) actual desired
  /\ exists i x y,
       actual !! i = Some x /\ desired !! i = Some y
       /\ (Qabs (y - x) == eps)%Q.

(** The reference and the produced result of the example: one column [y],
    one row, [0] against [1]; and the same with a second column [z] that is
    far off. *)
Definition reference_y : DataFrame := [(str "y", [0%Q])].
Definition produced_y : DataFrame := [(str "y", [1%Q])].
Definition reference_yz : DataFrame := [(str "y", [0%Q]); (str "z", [0%Q])].
Definition produced_yz : DataFrame := [(str "y", [0%Q]); (str "z", [1000%Q])].

(** ** Texts, tokens and substitution maps *)

Section texts.
Context {A : Type} `{!EqDecision A}.
Implicit Types k v s x u : list A.

(** An occurrence of [k] can begin inside an occurrence of [x]: some
    non-empty end of [x] begins with [k] or is a beginning of [k]. *)
Definition clash x k : Prop :=
  exists x1 x2, x = x1 ++ x2 /\ x2 <> []
                /\ (k `prefix_of` x2 \/ x2 `prefix_of` k).

Fixpoint clashb x k : bool :=
  match x with
  | [] => false
  | _ :: x' => Py.startswith k x || Py.startswith x k || clashb x' k
  end.

(** Occurrences of [x] and [y] never share a position, in any text. *)
Definition apart x y : Prop := ~ clash x y /\ ~ clash y x.

(** In [u ++ k] the token occurs at the end and nowhere before. *)
Definition gap k u : Prop := forall a b, u ++ k = a ++ k ++ b -> b = [].


End texts.

(** [d.keys()] and [d.values()] *)
Definition tokens (d : dict) : list text := map fst d.
Definition values (d : dict) : list text := map snd d.

(** [R] holds between every two elements at different places of [l]. *)
Fixpoint pairwise {X} (R : X -> X -> Prop) (l : list X) : Prop :=
  match l with
  | [] => True
  | x :: l' => Forall (R x) l' /\ pairwise R l'
  end.

(** A substitution map whose replacements cannot interfere with its
    tokens: tokens and values are not empty, and no occurrence of a token
    can share a position with an occurrence of a value. *)
Definition separated (d : dict) : Prop :=
  Forall (fun k => k <> []) (tokens d)
  /\ Forall (fun v => v <> []) (values d)
  /\ Forall (fun k => Forall (apart k) (values d)) (tokens d).

(** No two tokens of the map can overlap in a text. *)
Definition tokens_apart (d : dict) : Prop := pairwise apart (tokens d).

(** A character of the template ([inl]) or one a replacement produced
    ([inr]), without its tag. *)
Definition untag (c : ascii + ascii) : ascii :=
  match c with
  | inl a => a
  | inr a => a
  end.

(** The substitution as the specification words it: the tokens in the
    order of the mapping, the text produced by an earlier replacement not
    being scanned again.  A token matches characters of the template
    only. *)
Definition replace_all_no_rescan (repl_dict : dict) (contents : text) : text :=
  map untag
    (fold_left (fun acc kv => Py.replace (map inl kv.1) (map inr kv.2) acc)
       repl_dict (map inl contents)).

(** ** The simulation options as the specification words them *)




(** The line [getSimulationOptions] prints. *)
Definition options_line : text := str "(0.0,1.0,1e-06,500,0.002)".

(** ** A concrete environment

    A Linux host with the package installed under [/pkg], a home directory
    [/home], and a tool that writes the given text to its log. *)

Definition import_template : text :=
  str "loadFile(" ++ [quote] ++ str "PACKAGE_FOLDER/package.mo" ++ [quote]
  ++ str "); cd(" ++ [quote] ++ str "RESULT_FOLDER" ++ [quote]
  ++ str "); getSimulationOptions(MODEL_IN_PACKAGE);" ++ [nl].

Definition simulate_template : text :=
  str "system(" ++ [quote]
  ++ str "SIMULATION_BINARY -override startTime=START_TIME,stopTime=STOP_TIME,"
  ++ str "tolerance=TOLERANCE,stepSize=NUM_INTERVALS" ++ [quote] ++ str ");"
  ++ [nl].

Definition example_fs : gmap path node :=
  list_to_map
    [ ([], Dir);
      ([str "pkg"], Dir);
      ([str "pkg"; str "templates"], Dir);
      ([str "pkg"; str "templates"; str "omc"], Dir);
      ([str "pkg"; str "templates"; str "omc"; str "model_import.mos.template"],
       File import_template);
      ([str "pkg"; str "templates"; str "omc"; str "model_simulate.mos.template"],
       File simulate_template);
      ([str "home"], Dir) ].

(** A host whose tool leaves [log] as the text of [omc_output.txt]. *)
Definition example_host (log : text) : Host :=
  mkHost (str "Linux") (fun _ => true)
    (fun cmd here f => <[here ++ [str "omc_output.txt"] := File log]> f)
    as_posix [str "pkg"] (fun _ _ => Raise FileNotFoundError).

Definition good_log : text :=
  str "true" ++ [nl] ++ str "(0.0,1.0,1e-06,500,0.002)".

Definition bad_log : text :=
  str "Error: Class Sine not found in scope <top>." ++ [nl].

Definition example_world : World := mkWorld example_fs [str "home"] [] [].

(** The instance built in [/home] for the result folder [out]. *)
Definition example_test (H : Host) : RegressionTest :=
  match (init H (Relative [str "lib"]) (str "Sine") (Relative [str "out"])
           (Some (str "omc")) example_world).1 with
  | Return t => t
  | Raise _ => mkRegressionTest [] [] [] [] [] [] false
  end.

Definition example_sys (H : Host) : Sys := mkSys (example_test H) example_world.

(** The state after one successful run from the example instance. *)
Definition example_after_run : Sys :=
  (_import_and_simulate (example_host good_log)
     (example_sys (example_host good_log))).2.

(** A simulate script with three placeholders, and its substitution map. *)
Definition times_template : text :=
  str "simulate(startTime=START_TIME, stopTime=STOP_TIME, tolerance=TOLERANCE);".

Definition times_dict : dict :=
  [ (str "START_TIME", str "0.0");
    (str "STOP_TIME", str "1.0");
    (str "TOLERANCE", str "1e-06") ].

Definition script : path := [str "model_simulate.mos"].

Definition times_world : World :=
  mkWorld {[ script := File times_template ]} [] [] [].

(** A package folder whose path contains the text of the second token, and
    a result folder whose path contains the text of the first. *)
Definition crossed_dict : dict :=
  [ (str "PACKAGE_FOLDER", str "/data/RESULT_FOLDER/lib");
    (str "RESULT_FOLDER", str "/home/PACKAGE_FOLDER/out");
    (str "MODEL_IN_PACKAGE", str "Sine") ].

Definition import_world : World :=
  mkWorld {[ script := File import_template ]} [] [] [].

(** * Properties *)

(** ** The string operations on examples *)

Example replace_ex1 :
  Py.replace (str "ab") (str "X") (str "aabab-ab") = str "aXX-X".
Proof. reflexivity. Qed.

Example replace_ex2 : Py.replace (str "aa") (str "b") (str "aaa") = str "ba".
Proof. reflexivity. Qed.

Example replace_ex3 : Py.replace (str "") (str "-") (str "abc") = str "-a-b-c-".
Proof. reflexivity. Qed.

Example split_ex : Py.split ","%char (str "a,,b,") = [str "a"; str ""; str "b"; str ""].
Proof. reflexivity. Qed.

Example readlines_ex :
  Py.readlines (str "a" ++ ["010"%char] ++ ["010"%char] ++ str "b")
  = [str "a" ++ ["010"%char]; ["010"%char]; str "b"].
Proof. reflexivity. Qed.

Example strip_ex : Py.lower (Py.strip (str "  YeS ")) = str "yes".
Proof. reflexivity. Qed.

(** ** Stripping and lowering *)

Lemma lstrip_app_all {A} (p : A -> bool) (ws s : list A) :
  Forall (fun c => p c = true) ws -> Py.lstrip p (ws ++ s) = Py.lstrip p s.
Proof.
  induction 1 as [|c ws Hc _ IH]; simpl; [done|]. by rewrite Hc.
Qed.

Lemma lstrip_keep {A} (p : A -> bool) (c : A) (s : list A) :
  p c = false -> Py.lstrip p (c :: s) = c :: s.
Proof. intros Hc. simpl. by rewrite Hc. Qed.

Lemma rstrip_app {A} (p : A -> bool) (a b : list A) :
  Py.rstrip p (a ++ b) =
  match Py.rstrip p b with
  | [] => Py.rstrip p a
  | r => a ++ r
  end.
Proof.
  induction a as [|c a IH]; simpl.
  - by destruct (Py.rstrip p b).
  - rewrite IH. destruct (Py.rstrip p b); [done|]. by destruct a.
Qed.

Lemma rstrip_all {A} (p : A -> bool) (ws : list A) :
  Forall (fun c => p c = true) ws -> Py.rstrip p ws = [].
Proof.
  induction 1 as [|c ws Hc _ IH]; simpl; [done|]. by rewrite IH, Hc.
Qed.

Lemma rstrip_keep {A} (p : A -> bool) (s : list A) (c : A) :
  p c = false -> Py.rstrip p (s ++ [c]) = s ++ [c].
Proof. intros Hc. rewrite rstrip_app. simpl. by rewrite Hc. Qed.

Lemma isspace_lower (c : ascii) : Py.isspace c = true -> Py.lower_char c = c.
Proof.
  destruct c as [[] [] [] [] [] [] [] []]; vm_compute; congruence.
Qed.

(** Stripping leaves a core that neither starts nor ends in white space. *)
Lemma strip_core (ws1 core ws2 : text) :
  Forall (fun c => Py.isspace c = true) ws1 ->
  Forall (fun c => Py.isspace c = true) ws2 ->
  (forall c, head core = Some c -> Py.isspace c = false) ->
  (forall c, last core = Some c -> Py.isspace c = false) ->
  Py.strip (ws1 ++ core ++ ws2) = core.
Proof.
  intros H1 H2 Hh Hl. unfold Py.strip. rewrite lstrip_app_all by done.
  destruct core as [|c core].
  { simpl. rewrite <- (app_nil_r ws2). by rewrite lstrip_app_all. }
  rewrite <- app_comm_cons, lstrip_keep by (apply Hh; done).
  rewrite app_comm_cons, rstrip_app, rstrip_all by done.
  destruct (exists_last (l := c :: core)) as (s & d & Hs); [done|].
  rewrite Hs in *. apply rstrip_keep, Hl. by rewrite last_snoc.
Qed.

Lemma lower_not_space (c d : ascii) :
  Py.lower_char c = d -> Py.isspace d = false -> Py.isspace c = false.
Proof.
  intros Hc Hd. destruct (Py.isspace c) eqn:E; [|done].
  pose proof (isspace_lower c E). congruence.
Qed.

Lemma reads_as_yes (a : text) :
  reads_as (str "yes") a -> Py.lower (Py.strip a) = str "yes".
Proof.
  intros (ws1 & core & ws2 & -> & H1 & H2 & Hc).
  destruct core as [|c1 [|c2 [|c3 [|]]]]; try discriminate.
  injection Hc as E1 E2 E3.
  rewrite strip_core; try done.
  - simpl. by rewrite E1, E2, E3.
  - intros c [= <-]. by eapply lower_not_space.
  - intros c [= <-]. by eapply lower_not_space.
Qed.

Lemma reads_as_no (a : text) :
  reads_as (str "no") a -> Py.lower (Py.strip a) = str "no".
Proof.
  intros (ws1 & core & ws2 & -> & H1 & H2 & Hc).
  destruct core as [|c1 [|c2 [|]]]; try discriminate.
  injection Hc as E1 E2.
  rewrite strip_core; try done.
  - simpl. by rewrite E1, E2.
  - intros c [= <-]. by eapply lower_not_space.
  - intros c [= <-]. by eapply lower_not_space.
Qed.

(** ** The confirmation dialogue *)

Lemma asked_zero question (w : World) : asked question 0 (stdin w) w = w.
Proof. destruct w. unfold asked. simpl. by rewrite app_nil_r. Qed.

Lemma ask_loop_invalid question (pre tail : list text) :
  Forall invalid pre ->
  forall (n : nat) (w : World),
    stdin w = pre ++ tail -> length pre <= n ->
    ask_loop question n w
    = ask_loop question (n - length pre) (asked question (length pre) tail w).
Proof.
  induction 1 as [|a pre [Hy Hn] _ IH]; intros n w Hin Hlen; simpl in *.
  - rewrite Nat.sub_0_r, <- Hin. by rewrite asked_zero.
  - destruct n as [|n]; [lia|]. simpl.
    unfold bind at 1, print_noend. unfold bind at 1, input. simpl.
    rewrite Hin. simpl.
    rewrite decide_False by done. rewrite decide_False by done.
    rewrite IH; [| done | lia]. f_equal.
    unfold asked. simpl. f_equal. by rewrite <- app_assoc.
Qed.

Lemma ask_loop_answer question (n : nat) (a : text) (rest : list text)
    (w : World) (b : bool) :
  stdin w = a :: rest ->
  Py.lower (Py.strip a) = str (if b then "yes" else "no") ->
  ask_loop question (S n) w = (Return (Some b), asked question 1 rest w).
Proof.
  intros Hin Ha. simpl. unfold bind at 1, print_noend.
  unfold bind at 1, input. simpl. rewrite Hin. simpl. rewrite Ha.
  by destruct b.
Qed.

Lemma asked_asked question (n m : nat) (r1 r2 : list text) (w : World) :
  asked question m r2 (asked question n r1 w) = asked question (n + m) r2 w.
Proof.
  unfold asked. simpl. f_equal. by rewrite <- app_assoc, repeat_app.
Qed.

(** C7: [_ask_confirmation] with its budget of five asks.  After any
    number of invalid answers below five, an answer that reads as yes gives
    [True] and one that reads as no gives [False]; five invalid answers
    raise [ValueError]. *)
Theorem ask_confirmation_budget (question : text) (w : World)
    (pre rest : list text) :
  Forall invalid pre ->
  (forall a, length pre < 5 -> stdin w = pre ++ a :: rest ->
     reads_as (str "yes") a ->
     _ask_confirmation question 5 w
     = (Return true, asked question (S (length pre)) rest w))
  /\ (forall a, length pre < 5 -> stdin w = pre ++ a :: rest ->
      reads_as (str "no") a ->
      _ask_confirmation question 5 w
      = (Return false, asked question (S (length pre)) rest w))
  /\ (length pre = 5 -> stdin w = pre ++ rest ->
      _ask_confirmation question 5 w
      = (Raise ValueError, asked question 5 rest w)).
Proof.
  intros Hpre. split; [|split].
  - intros a Hlen Hin Ha. unfold _ask_confirmation, bind.
    rewrite (ask_loop_invalid question pre (a :: rest) Hpre 5 w Hin) by lia.
    destruct (5 - length pre) as [|n] eqn:E; [lia|].
    rewrite (ask_loop_answer question n a rest _ true);
      [| done | by apply reads_as_yes].
    rewrite asked_asked. by rewrite Nat.add_1_r.
  - intros a Hlen Hin Ha. unfold _ask_confirmation, bind.
    rewrite (ask_loop_invalid question pre (a :: rest) Hpre 5 w Hin) by lia.
    destruct (5 - length pre) as [|n] eqn:E; [lia|].
    rewrite (ask_loop_answer question n a rest _ false);
      [| done | by apply reads_as_no].
    rewrite asked_asked. by rewrite Nat.add_1_r.
  - intros Hlen Hin. unfold _ask_confirmation, bind.
    rewrite (ask_loop_invalid question pre rest Hpre 5 w Hin) by lia.
    rewrite Hlen. simpl. done.
Qed.

Lemma ask_confirmation_budget_witness :
  _ask_confirmation (str "Delete?") 5
    (mkWorld ∅ [] [str "maybe"; str "  YeS "; str "x"] [])
  = (Return true,
     asked (str "Delete?") 2 [str "x"]
       (mkWorld ∅ [] [str "maybe"; str "  YeS "; str "x"] []))
  /\ _ask_confirmation (str "Delete?") 5 (mkWorld ∅ [] [str "NO"] [])
     = (Return false,
        asked (str "Delete?") 1 [] (mkWorld ∅ [] [str "NO"] []))
  /\ _ask_confirmation (str "Delete?") 5
       (mkWorld ∅ [] (repeat (str "ja") 5 ++ [str "yes"]) [])
     = (Raise ValueError,
        asked (str "Delete?") 5 [str "yes"]
          (mkWorld ∅ [] (repeat (str "ja") 5 ++ [str "yes"]) [])).
Proof.
  split; [|split].
  - refine (proj1 (ask_confirmation_budget (str "Delete?") _
                     [str "maybe"] [str "x"] _) (str "  YeS ") _ _ _).
    + repeat constructor; discriminate.
    + simpl. lia.
    + reflexivity.
    + exists (str "  "), (str "YeS"), (str " ").
      repeat split; repeat constructor.
  - refine (proj1 (proj2 (ask_confirmation_budget (str "Delete?") _
                            [] [] _)) (str "NO") _ _ _).
    + constructor.
    + simpl. lia.
    + reflexivity.
    + exists [], (str "NO"), []. repeat split; constructor.
  - refine (proj2 (proj2 (ask_confirmation_budget (str "Delete?") _
                            (repeat (str "ja") 5) [str "yes"] _)) _ _).
    + repeat constructor; discriminate.
    + reflexivity.
    + reflexivity.
Defined.

(** ** What a statement leaves alone *)

Lemma preserves_ret {S A X} (f : S -> X) (a : A) : preserves f (ret a).
Proof. done. Qed.

Lemma preserves_raise {S A X} (f : S -> X) (e : exn) :
  preserves f (raise (A := A) e).
Proof. done. Qed.

Lemma preserves_lift_outcome {S A X} (f : S -> X) (o : outcome A) :
  preserves f (lift_outcome o).
Proof. done. Qed.

Lemma preserves_bind {S A B X} (f : S -> X) (m : M S A) (k : A -> M S B) :
  preserves f m -> (forall a, preserves f (k a)) -> preserves f (bind m k).
Proof.
  intros Hm Hk s. unfold bind. specialize (Hm s).
  destruct (m s) as [[a|e] s']; simpl in *; [|done].
  by rewrite Hk.
Qed.

Lemma preserves_for_each {S A X} (f : S -> X) (xs : list A)
    (body : A -> M S unit) :
  (forall x, preserves f (body x)) -> preserves f (for_each xs body).
Proof.
  intros Hb. induction xs as [|x xs IH]; simpl.
  - apply preserves_ret.
  - apply preserves_bind; [apply Hb | done].
Qed.

Lemma preserves_in_world_self {A} (m : M World A) :
  preserves self (in_world m).
Proof. intros s. unfold in_world. by destruct (m (world s)). Qed.

Lemma preserves_in_world {A X} (f : World -> X) (m : M World A) :
  preserves f m -> preserves (fun s => f (world s)) (in_world m).
Proof.
  intros Hm s. unfold in_world. specialize (Hm (world s)).
  by destruct (m (world s)).
Qed.

Lemma preserves_get_self {X} (f : Sys -> X) : preserves f get_self.
Proof. done. Qed.

Lemma preserves_print_cwd (s : text) : preserves cwd (print s).
Proof. done. Qed.

Lemma preserves_getcwd {X} (f : World -> X) : preserves f getcwd.
Proof. done. Qed.

Lemma preserves_read_file {X} (f : World -> X) (p : path) :
  preserves f (read_file p).
Proof. intros w. unfold read_file. by destruct (fs w !! p) as [[]|]. Qed.

Lemma preserves_write_file_cwd (p : path) (c : text) :
  preserves cwd (write_file p c).
Proof.
  intros w. unfold write_file.
  destruct (fs w !! p) as [[]|]; try done.
  by destruct (fs w !! parent p) as [[]|].
Qed.

Lemma preserves_copy_cwd (src dst : path) : preserves cwd (copy src dst).
Proof.
  intros w. unfold copy. case_decide; [done|].
  apply (preserves_bind cwd); [apply preserves_read_file|].
  intros c. apply preserves_write_file_cwd.
Qed.

Lemma preserves_replace_in_file_cwd (p : path) (d : dict) :
  preserves cwd (_replace_in_file p d).
Proof.
  apply preserves_bind; [apply preserves_read_file|].
  intros c. apply preserves_write_file_cwd.
Qed.

Create HintDb frame.
#[local] Hint Resolve preserves_ret preserves_raise preserves_lift_outcome
  preserves_get_self preserves_print_cwd preserves_getcwd preserves_read_file
  preserves_write_file_cwd preserves_copy_cwd preserves_replace_in_file_cwd
  preserves_in_world_self : frame.

(** Splits a chain of statements and closes the primitive ones. *)
Ltac frame_step :=
  first
    [ apply preserves_bind; [|intros ?]
    | progress auto with frame
    | match goal with
      | |- preserves _ (if ?b then _ else _) => destruct b
      | |- preserves _ (match ?x with _ => _ end) => destruct x
      | |- preserves _ (let '(_, _) := ?x in _) => destruct x
      end ].

Lemma run_tool_self (H : Host) (tool : text) : preserves self (run_tool H tool).
Proof. unfold run_tool. repeat frame_step. Qed.

Lemma run_tool_cwd (H : Host) (tool : text) :
  preserves (fun s => cwd (world s)) (run_tool H tool).
Proof.
  unfold run_tool.
  apply preserves_bind; [done|]. intros t.
  apply preserves_bind; [by apply (preserves_in_world cwd)|]. intros _.
  case_decide; [|done].
  apply (preserves_in_world cwd).
  repeat frame_step; done.
Qed.

Lemma run_model_self (H : Host) : preserves self (_run_model H).
Proof.
  apply preserves_bind; [done|]. intros t.
  apply preserves_for_each, run_tool_self.
Qed.

Lemma run_model_cwd (H : Host) :
  preserves (fun s => cwd (world s)) (_run_model H).
Proof.
  apply preserves_bind; [done|]. intros t.
  apply preserves_for_each, run_tool_cwd.
Qed.

(** ** Cleaning up *)

Lemma remove_tree_root (p : path) (f : gmap path node) :
  remove_tree p f !! p = None.
Proof.
  unfold remove_tree. apply map_lookup_filter_None. right.
  intros x _ Hn. by apply Hn.
Qed.

(** C10: [cleanup] is not idempotent.  With the folder created by the run
    and present, a first [cleanup(False)] removes it and leaves the flag
    set; a second one raises [FileNotFoundError] from [shutil.rmtree]. *)
Theorem cleanup_not_idempotent (H : Host) (s : Sys) :
  result_folder_created (self s) = true ->
  fs (world s) !! result_folder_path (self s) = Some Dir ->
  exists s1,
    cleanup H false s = (Return tt, s1)
    /\ fs (world s1) !! result_folder_path (self s) = None
    /\ self s1 = self s
    /\ result_folder_created (self s1) = true
    /\ cleanup H false s1 = (Raise FileNotFoundError, s1).
Proof.
  intros Hflag Hdir.
  exists (mkSys (self s)
            (with_fs (remove_tree (result_folder_path (self s)) (fs (world s)))
               (world s))).
  unfold cleanup, bind, get_self, in_world, rmtree. simpl.
  rewrite Hflag, Hdir. simpl. rewrite remove_tree_root. done.
Qed.

(** ** The import and simulation run *)

Lemma import_and_simulate_enter (H : Host) (s : Sys) :
  _import_and_simulate H s =
  match enter_result_folder s with
  | (Return _, s1) =>
      match _run_model H s1 with
      | (Return _, s2) =>
          match chdir (initial_cwd (self s2)) (world s2) with
          | (Return _, w3) => (Return tt, mkSys (self s2) w3)
          | (Raise e, w3) => (Raise e, mkSys (self s2) w3)
          end
      | (Raise e, s2) => (Raise e, s2)
      end
  | (Raise e, s1) => (Raise e, s1)
  end.
Proof.
  unfold _import_and_simulate, enter_result_folder, bind, get_self, in_world,
    path_exists, print, set_result_folder_created, mkdir, chdir, ret.
  simpl.
  destruct (fs (world s) !! result_folder_path (self s)) as [[|c]|] eqn:E;
    simpl; rewrite ?E; simpl.
  - destruct (_run_model H _) as [[[]|e] s2]; [|done].
    by destruct (fs (world s2) !! initial_cwd (self s2)) as [[|c]|].
  - done.
  - destruct (fs (world s) !! parent (result_folder_path (self s)))
      as [[|c]|]; simpl; [|done..].
    rewrite lookup_insert_eq. simpl.
    destruct (_run_model H _) as [[[]|e] s2]; [|done].
    by destruct (fs (world s2) !! initial_cwd (self s2)) as [[|c]|].
Qed.

(** What entering does, by the state of the result folder. *)
Lemma enter_result_folder_spec (s s1 : Sys) (o : outcome unit) :
  enter_result_folder s = (o, s1) ->
  let p := result_folder_path (self s) in
  match fs (world s) !! p with
  | Some Dir => o = Return tt /\ self s1 = self s /\ cwd (world s1) = p
  | Some (File _) => o = Raise NotADirectoryError /\ self s1 = self s
  | None =>
      match fs (world s) !! parent p with
      | Some Dir =>
          o = Return tt /\ cwd (world s1) = p
          /\ self s1 = with_result_folder_created true (self s)
      | Some (File _) => o = Raise NotADirectoryError /\ self s1 = self s
      | None => o = Raise FileNotFoundError /\ self s1 = self s
      end
  end.
Proof.
  unfold enter_result_folder, bind, get_self, in_world,
    path_exists, print, set_result_folder_created, mkdir, chdir, ret.
  simpl.
  destruct (fs (world s) !! result_folder_path (self s)) as [[|c]|] eqn:E;
    simpl; rewrite ?E; simpl.
  - by intros [= <- <-].
  - by intros [= <- <-].
  - destruct (fs (world s) !! parent (result_folder_path (self s)))
      as [[|c]|]; simpl.
    + rewrite lookup_insert_eq. simpl. by intros [= <- <-].
    + by intros [= <- <-].
    + by intros [= <- <-].
Qed.

Lemma import_and_simulate_self (H : Host) (s : Sys) :
  self (_import_and_simulate H s).2 = self (enter_result_folder s).2.
Proof.
  rewrite import_and_simulate_enter.
  destruct (enter_result_folder s) as [[[]|e] s1]; [|done].
  pose proof (run_model_self H s1) as Hs.
  destruct (_run_model H s1) as [[[]|e] s2]; simpl in *; [|done].
  by destruct (chdir (initial_cwd (self s2)) (world s2)) as [[[]|e] w3].
Qed.

(** C3: [cleanup] deletes only what the run created.  With the flag unset,
    [cleanup] (asking or not) only prints its refusal: the file system, the
    standard input and the instance are as before.  The constructor leaves
    the flag unset, and a run sets it exactly when it finds the result
    folder absent and creates it. *)
Theorem cleanup_only_own_folder (H : Host) (s : Sys) (ask : bool) :
  result_folder_created (self s) = false ->
  (exists w',
     cleanup H ask s = (Return tt, mkSys (self s) w')
     /\ fs w' = fs (world s)
     /\ cwd w' = cwd (world s)
     /\ stdin w' = stdin (world s))
  /\ (forall pf m rf tool w,
        exists t, (init H pf m rf tool w).1 = Return t
                  /\ result_folder_created t = false)
  /\ (result_folder_created (self (_import_and_simulate H s).2) = true
      <-> fs (world s) !! result_folder_path (self s) = None
          /\ fs (world s) !! parent (result_folder_path (self s)) = Some Dir).
Proof.
  intros Hflag. split; [|split].
  - unfold cleanup, bind, get_self, in_world, print. simpl. rewrite Hflag.
    simpl. eexists. split; [reflexivity|]. done.
  - intros pf m rf tool w. eexists. split; [reflexivity|done].
  - rewrite import_and_simulate_self.
    destruct (enter_result_folder s) as [o s1] eqn:E.
    apply enter_result_folder_spec in E. simpl in *.
    destruct (fs (world s) !! result_folder_path (self s)) as [[|c]|].
    + destruct E as (_ & -> & _). rewrite Hflag. split; [done | by intros [? ?]].
    + destruct E as (_ & ->). rewrite Hflag. split; [done | by intros [? ?]].
    + destruct (fs (world s) !! parent (result_folder_path (self s)))
        as [[|c]|].
      * destruct E as (_ & _ & ->). simpl. done.
      * destruct E as (_ & ->). rewrite Hflag. split; [done | by intros [? ?]].
      * destruct E as (_ & ->). rewrite Hflag. split; [done | by intros [? ?]].
Qed.

Example example_run_good :
  let r := _import_and_simulate (example_host good_log)
             (example_sys (example_host good_log)) in
  r.1 = Return tt
  /\ cwd (world r.2) = [str "home"]
  /\ result_folder_created (self r.2) = true
  /\ fs (world r.2) !! [str "home"; str "out"; str "model_simulate.mos"]
     = Some (File (str "system(" ++ [quote]
       ++ str "./Sine -override startTime=0.0,stopTime=1.0,"
       ++ str "tolerance=1e-06,stepSize=500" ++ [quote] ++ str ");" ++ [nl])).
Proof. vm_compute. done. Qed.

Lemma cleanup_only_own_folder_witness :
  exists w',
    cleanup (example_host good_log) true (example_sys (example_host good_log))
    = (Return tt, mkSys (self (example_sys (example_host good_log))) w')
    /\ fs w' = fs (world (example_sys (example_host good_log)))
    /\ cwd w' = cwd (world (example_sys (example_host good_log)))
    /\ stdin w' = stdin (world (example_sys (example_host good_log))).
Proof.
  refine (proj1 (cleanup_only_own_folder (example_host good_log)
                   (example_sys (example_host good_log)) true _)).
  reflexivity.
Defined.

Lemma cleanup_not_idempotent_witness :
  exists s1,
    cleanup (example_host good_log) false example_after_run = (Return tt, s1)
    /\ fs (world s1) !! result_folder_path (self example_after_run) = None
    /\ self s1 = self example_after_run
    /\ result_folder_created (self s1) = true
    /\ cleanup (example_host good_log) false s1
       = (Raise FileNotFoundError, s1).
Proof.
  refine (cleanup_not_idempotent (example_host good_log) example_after_run _ _).
  - vm_compute. reflexivity.
  - vm_compute. reflexivity.
Defined.

(** ** The working directory of the process *)

(** C8, as the code has it: [_run_model] starts and ends in the result
    folder; when the whole run returns, the process is in the directory
    recorded at construction; when [_run_model] raises, the exception leaves
    [_import_and_simulate] at once and the process stays in the result
    folder. *)
Theorem import_and_simulate_cwd (H : Host) (s : Sys) :
  (enter_result_folder s).1 = Return tt ->
  cwd (world (enter_result_folder s).2) = result_folder_path (self s)
  /\ cwd (world (_run_model H (enter_result_folder s).2).2)
     = result_folder_path (self s)
  /\ (forall s', _import_and_simulate H s = (Return tt, s') ->
        cwd (world s') = initial_cwd (self s))
  /\ (forall e, (_run_model H (enter_result_folder s).2).1 = Raise e ->
        (_import_and_simulate H s).1 = Raise e
        /\ cwd (world (_import_and_simulate H s).2)
           = result_folder_path (self s)).
Proof.
  intros Henter.
  destruct (enter_result_folder s) as [o s1] eqn:Hs1. simpl in Henter.
  subst o. simpl.
  assert (cwd (world s1) = result_folder_path (self s)
          /\ initial_cwd (self s1) = initial_cwd (self s)) as [Hcwd Hinit].
  { pose proof (enter_result_folder_spec s s1 _ Hs1) as E. simpl in E.
    destruct (fs (world s) !! result_folder_path (self s)) as [[|c]|].
    - by destruct E as (_ & -> & ->).
    - by destruct E as (? & _).
    - destruct (fs (world s) !! parent (result_folder_path (self s)))
        as [[|c]|].
      + by destruct E as (_ & -> & ->).
      + by destruct E as (? & _).
      + by destruct E as (? & _). }
  pose proof (run_model_cwd H s1) as Hrun. simpl in Hrun.
  pose proof (run_model_self H s1) as Hself.
  split; [done|]. split; [congruence|]. split.
  - intros s'. rewrite import_and_simulate_enter, Hs1.
    destruct (_run_model H s1) as [[[]|e] s2]; [|done]. simpl in *.
    unfold chdir.
    destruct (fs (world s2) !! initial_cwd (self s2)) as [[|c]|]; [|done..].
    intros [= <-]. simpl. congruence.
  - intros e. rewrite import_and_simulate_enter, Hs1.
    destruct (_run_model H s1) as [[[]|e'] s2]; simpl in *; [done|].
    intros [= ->]. split; [done | congruence].
Qed.

Lemma import_and_simulate_cwd_witness :
  cwd (world (enter_result_folder (example_sys (example_host good_log))).2)
  = result_folder_path (self (example_sys (example_host good_log)))
  /\ (forall s',
        _import_and_simulate (example_host good_log)
          (example_sys (example_host good_log)) = (Return tt, s') ->
        cwd (world s')
        = initial_cwd (self (example_sys (example_host good_log)))).
Proof.
  assert ((enter_result_folder (example_sys (example_host good_log))).1
          = Return tt) as Henter by (vm_compute; reflexivity).
  exact (conj
    (proj1 (import_and_simulate_cwd (example_host good_log)
              (example_sys (example_host good_log)) Henter))
    (proj1 (proj2 (proj2 (import_and_simulate_cwd (example_host good_log)
              (example_sys (example_host good_log)) Henter))))).
Defined.

(** C8 as stated fails when a phase fails: the tool reports an error, its
    log has no line of five fields, unpacking raises [ValueError], and the
    process is left in the result folder instead of the directory recorded
    at construction. *)
Lemma import_and_simulate_cwd_not_restored :
  (_import_and_simulate (example_host bad_log)
     (example_sys (example_host bad_log))).1 = Raise ValueError
  /\ cwd (world (_import_and_simulate (example_host bad_log)
                   (example_sys (example_host bad_log))).2)
     = [str "home"; str "out"]
  /\ initial_cwd (self (example_sys (example_host bad_log))) = [str "home"]
  /\ cwd (world (_import_and_simulate (example_host bad_log)
                   (example_sys (example_host bad_log))).2)
     <> initial_cwd (self (example_sys (example_host bad_log))).
Proof. vm_compute. repeat split; discriminate. Qed.

(** ** The tools of an instance *)

(** C9 as stated fails: the constructor takes any tool name as it is. *)
Lemma constructor_takes_any_tool :
  exists t,
    (init (example_host good_log) (Relative [str "lib"]) (str "Sine")
       (Relative [str "out"]) (Some (str "dymola")) example_world).1
    = Return t
    /\ ~ Forall (fun tl => tl ∈ supported_tools) (tools t).
Proof.
  eexists. split; [reflexivity|]. simpl.
  intros Hall. apply Forall_cons in Hall as [Hin _].
  apply list_elem_of_singleton in Hin. discriminate.
Qed.

(** C9, as the code has it: a tool passed to the constructor becomes the
    one entry of the tool list, unchecked; only without one ([None]) is the
    list drawn from the supported tools, by what is on the PATH.  A tool
    outside the supported ones is announced and skipped by [_run_model]. *)
Theorem constructor_tools (H : Host) (pf rf : pathspec) (m : text)
    (tool : option text) (w : World) :
  exists t,
    init H pf m rf tool w = (Return t, w)
    /\ tools t = match tool with
                 | Some tl => [tl]
                 | None => if which H (str "omc") then [str "omc"] else []
                 end
    /\ (Forall (fun tl => tl ∈ supported_tools) (tools t)
        <-> tool = None \/ tool = Some (str "omc"))
    /\ (forall tl s,
          tl ∉ supported_tools ->
          exists w',
            run_tool H tl s = (Return tt, mkSys (self s) w')
            /\ fs w' = fs (world s)
            /\ cwd w' = cwd (world s)
            /\ stdin w' = stdin (world s)).
Proof.
  eexists. split; [reflexivity|]. cbn [tools]. split; [|split].
  - destruct tool as [tl|]; [done|]. rewrite filter_cons, filter_nil.
    destruct (which H (str "omc")); by case_decide.
  - destruct tool as [tl|].
    + rewrite Forall_singleton. unfold supported_tools.
      rewrite list_elem_of_singleton. split.
      * intros ->. by right.
      * intros [?|[= ->]]; done.
    + split; [by left|]. intros _.
      apply Forall_forall. intros x Hx.
      apply list_elem_of_filter in Hx. by destruct Hx.
  - intros tl s Htl. unfold supported_tools in Htl.
    rewrite list_elem_of_singleton in Htl.
    unfold run_tool, bind, get_self, in_world, print. simpl.
    rewrite decide_False by done. eexists. split; [reflexivity|]. done.
Qed.

(** ** Comparing the columns *)

Lemma getitem_columns (d : DataFrame) (c : text) :
  c ∈ columns d <-> exists v, getitem d c = Return v.
Proof.
  induction d as [|[n v] d IH]; simpl.
  - split; [by intros ?%elem_of_nil | by intros [? ?]].
  - rewrite elem_of_cons. case_decide as E.
    + split; [by eauto | by left].
    + rewrite IH. split; [intros [->|?]; done | by right].
Qed.

Lemma compare_columns_nil ref_data result_data precision (w : World) :
  compare_columns ref_data result_data precision [] w = (Return tt, w).
Proof. done. Qed.

(** One round of the loop: the column is announced, then checked. *)
Lemma compare_columns_cons ref_data result_data precision c cs (w : World) :
  compare_columns ref_data result_data precision (c :: cs) w =
  let w' := with_stdout
              (stdout w ++ [(str "Comparing column " ++ [quote] ++ c ++ [quote])
                              ++ [nl]]) w in
  match getitem result_data c with
  | Raise e => (Raise e, w')
  | Return actual =>
      match getitem ref_data c with
      | Raise e => (Raise e, w')
      | Return desired =>
          if all_almost_equal precision actual desired
          then compare_columns ref_data result_data precision cs w'
          else (Raise AssertionError, w')
      end
  end.
Proof.
  unfold compare_columns at 1. simpl.
  unfold bind at 1. unfold bind at 1. unfold print. simpl.
  unfold bind at 1, lift_outcome at 1.
  destruct (getitem result_data c) as [actual|e]; [|done].
  unfold bind at 1, lift_outcome at 1.
  destruct (getitem ref_data c) as [desired|e]; [|done].
  unfold lift_outcome, assert_almost_equal.
  by destruct (all_almost_equal precision actual desired).
Qed.


(** On columns present in both frames the loop ends normally when every
    column is within the bound and by [AssertionError] otherwise. *)
Lemma compare_columns_outcome ref_data result_data precision cs (w : World) :
  Forall (fun c => c ∈ columns ref_data /\ c ∈ columns result_data) cs ->
  (compare_columns ref_data result_data precision cs w).1
  = if forallb (column_ok ref_data result_data precision) cs
    then Return tt else Raise AssertionError.
Proof.
  intros Hcs. revert w. induction Hcs as [|c cs [Hr Ha] _ IH]; intros w.
  - done.
  - rewrite compare_columns_cons. cbv zeta. simpl. unfold column_ok at 1.
    apply getitem_columns in Hr as [desired ->].
    apply getitem_columns in Ha as [actual ->].
    destruct (all_almost_equal precision actual desired); [|done].
    apply IH.
Qed.

Lemma common_cols_spec (ref_data result_data : DataFrame) (c : text) :
  c ∈ common_cols ref_data result_data
  <-> c ∈ columns ref_data /\ c ∈ columns result_data.
Proof.
  unfold common_cols. by rewrite list_elem_of_intersection, elem_of_remove_dups.
Qed.

Lemma common_cols_NoDup (a b : DataFrame) : NoDup (common_cols a b).
Proof. apply NoDup_list_intersection, NoDup_remove_dups. Qed.




(** ** The bound of the comparison *)

Lemma almost_equal_spec (decimal : Z) (actual desired : Q) :
  almost_equal decimal actual desired = true
  <-> (Qabs (desired - actual) < tolerance decimal)%Q.
Proof.
  unfold almost_equal. rewrite negb_true_iff, <- not_true_iff_false.
  rewrite Qle_bool_iff. split.
  - apply Qnot_le_lt.
  - apply Qlt_not_le.
Qed.

(** The bound numpy applies lies above [10**(-decimal)]. *)
Lemma tolerance_above (decimal : Z) :
  ((10 # 1) ^ (- decimal) < tolerance decimal)%Q.
Proof.
  unfold tolerance.
  assert (0 < (10 # 1) ^ (- decimal))%Q as Hpos by (by apply Qpower_0_lt).
  rewrite <- (Qmult_1_l ((10 # 1) ^ (- decimal))) at 1.
  by apply Qmult_lt_compat_r.
Qed.

Lemma all_almost_equal_spec (decimal : Z) (actual desired : list Q) :
  all_almost_equal decimal actual desired = true
  <-> Forall2 (fun x y => (Qabs (y - x) < tolerance decimal)%Q) actual desired.
Proof.
  revert desired. induction actual as [|a actual IH]; intros [|d desired];
    simpl.
  - split; [constructor | done].
  - split; [done | inversion 1].
  - split; [done | inversion 1].
  - rewrite andb_true_iff, almost_equal_spec, IH. split.
    + intros [? ?]. by constructor.
    + by inversion 1.
Qed.

(** Below [10**(-precision)] a column passes. *)
Lemma differ_below_passes (precision : Z) (eps : Q) (actual desired : list Q) :
  differ_by eps actual desired ->
  (eps < (10 # 1) ^ (- precision))%Q ->
  all_almost_equal precision actual desired = true.
Proof.
  intros [Hall _] Heps. apply all_almost_equal_spec.
  eapply Forall2_impl; [exact Hall|]. intros x y Hxy. simpl in Hxy.
  eapply Qle_lt_trans; [exact Hxy|].
  eapply Qlt_trans; [exact Heps | apply tolerance_above].
Qed.

(** At or beyond [1.5 * 10**(-precision)] it fails. *)
Lemma differ_beyond_fails (precision : Z) (eps : Q) (actual desired : list Q) :
  differ_by eps actual desired ->
  (tolerance precision <= eps)%Q ->
  all_almost_equal precision actual desired = false.
Proof.
  intros [Hall (i & x & y & Hx & Hy & Hxy)] Heps.
  apply not_true_iff_false. rewrite all_almost_equal_spec. intros Hlt.
  pose proof (Forall2_lookup_lr _ _ _ _ _ _ Hlt Hx Hy) as Hi. simpl in Hi.
  rewrite Hxy in Hi. by apply (Qlt_not_le _ _ Hi).
Qed.

(** In between, from [10**(-precision)] up to the bound of numpy, a column
    that differs by [eps] still passes. *)
Lemma differ_between_passes (precision : Z) (eps : Q)
    (actual desired : list Q) :
  differ_by eps actual desired ->
  ((10 # 1) ^ (- precision) <= eps)%Q ->
  (eps < tolerance precision)%Q ->
  all_almost_equal precision actual desired = true.
Proof.
  intros [Hall _] _ Heps. apply all_almost_equal_spec.
  eapply Forall2_impl; [exact Hall|]. intros x y Hxy. simpl in Hxy.
  by eapply Qle_lt_trans.
Qed.

(** C1: the comparison at the bound the docstring of [compare_result]
    states.  The column [y] differs by exactly [1 = 10**(-0)], and by
    [1.2e-7 >= 10**(-7)] in the second pair; neither comparison raises,
    because the bound applied is [1.5 * 10**(-precision)]. *)
Theorem compare_passes_at_stated_bound (w : World) :
  differ_by 1 [1%Q] [0%Q]
  /\ ((10 # 1) ^ (- 0) <= 1)%Q
  /\ (compare_frames reference_y produced_y 0 [str "y"] w).1 = Return tt
  /\ differ_by (12 # 100000000) [(100000012 # 100000000)%Q] [1%Q]
  /\ ((10 # 1) ^ (- 7) <= 12 # 100000000)%Q
  /\ (compare_frames [(str "y", [1%Q])]
        [(str "y", [(100000012 # 100000000)%Q])] 7 [] w).1 = Return tt.
Proof.
  assert (forall (eps x y : Q), (Qabs (y - x) == eps)%Q ->
            differ_by eps [x] [y]) as Hone.
  { intros eps x y Hxy. split.
    - repeat constructor. rewrite Hxy. apply Qle_refl.
    - exists 0%nat, x, y. done. }
  split; [by apply Hone|]. split; [done|]. split.
  - unfold compare_frames. rewrite compare_columns_cons. cbv zeta.
    by rewrite compare_columns_nil.
  - split; [by apply Hone|]. split; [done|].
    unfold compare_frames.
    change (common_cols _ _) with [str "y"].
    rewrite compare_columns_cons. cbv zeta.
    by rewrite compare_columns_nil.
Qed.

(** An explicit list keeps a far-off column out of the comparison; without
    the list the same frames fail. *)
Example explicit_list_skips_other_columns (w : World) :
  (compare_frames reference_yz produced_yz 7 [str "y"] w).1 = Return tt
  /\ (compare_frames reference_yz produced_yz 7 [] w).1 = Raise AssertionError.
Proof.
  split.
  - unfold compare_frames. rewrite compare_columns_cons. cbv zeta.
    by rewrite compare_columns_nil.
  - unfold compare_frames. change (common_cols _ _) with [str "y"; str "z"].
    rewrite compare_columns_outcome; [done|].
    repeat constructor; rewrite list_elem_of_In; simpl; tauto.
Qed.

(** ** Reading the simulation options *)













(** A last line that still ends in its newline keeps its [')']: the fifth
    field, which no caller reads, is ["0.002)"] and the newline. *)
Example newline_blocks_rstrip :
  simulation_options (Py.readlines (options_line ++ [nl]))
  = Return (str "0.0", str "1.0", str "1e-06", str "500",
            str "0.002)" ++ [nl]).
Proof. reflexivity. Qed.




(** ** Replacing in a text *)

Section replacing.
Context {A : Type} `{!EqDecision A}.
Implicit Types k v s x : list A.

Lemma startswith_true k s : Py.startswith k s = true <-> k `prefix_of` s.
Proof. apply bool_decide_eq_true. Qed.

Lemma replace_from_skip k v (n : nat) s :
  Py.replace_from k v n s = Py.replace_from k v 0 (drop n s).
Proof.
  revert n. induction s as [|c s IH]; intros [|n]; try done.
  simpl. apply IH.
Qed.

(** The three equations of [replace] for a non-empty [k]. *)
Lemma replace_nil k v : k <> [] -> Py.replace k v [] = [].
Proof. by destruct k. Qed.

Lemma replace_match k v s :
  k <> [] -> Py.replace k v (k ++ s) = v ++ Py.replace k v s.
Proof.
  destruct k as [|c k]; [done|]. intros _. unfold Py.replace.
  change ((c :: k) ++ s) with (c :: (k ++ s)).
  cbn [Py.replace_from].
  rewrite (proj2 (startswith_true (c :: k) (c :: k ++ s)))
    by (by exists s).
  f_equal. rewrite replace_from_skip. simpl. by rewrite drop_app_length.
Qed.

Lemma replace_skip k v (c : A) s :
  k <> [] -> ~ k `prefix_of` c :: s ->
  Py.replace k v (c :: s) = c :: Py.replace k v s.
Proof.
  destruct k as [|d k]; [done|]. intros _ Hk. unfold Py.replace.
  cbn [Py.replace_from].
  destruct (Py.startswith (d :: k) (c :: s)) eqn:E; [|done].
  by apply startswith_true in E.
Qed.

(** Induction along the scan of [replace]. *)
Lemma replace_scan_ind k (P : list A -> Prop) :
  k <> [] ->
  P [] ->
  (forall s, P s -> P (k ++ s)) ->
  (forall c s, ~ k `prefix_of` c :: s -> P s -> P (c :: s)) ->
  forall s, P s.
Proof.
  intros Hk Hnil Hmatch Hskip s.
  remember (length s) as n eqn:Hn. revert s Hn.
  induction n as [n IH] using lt_wf_ind. intros s ->.
  destruct s as [|c s]; [done|].
  destruct (decide (k `prefix_of` c :: s)) as [[t Ht]|Hno].
  - rewrite Ht. apply Hmatch. apply (IH (length t)); [|done].
    rewrite Ht, length_app. destruct k; [done|]. simpl. lia.
  - apply Hskip; [done|]. apply (IH (length s)); [simpl; lia | done].
Qed.

(** *** Occurrences *)

Lemma occurs_nil_l s : Py.occurs [] s.
Proof. by exists [], s. Qed.

Lemma occurs_nil_inv x : Py.occurs x [] -> x = [].
Proof.
  intros (a & b & Hab). symmetry in Hab.
  apply app_eq_nil in Hab as [_ Hab]. by apply app_eq_nil in Hab as [? _].
Qed.

Lemma occurs_prefix x s : x `prefix_of` s -> Py.occurs x s.
Proof. intros [b ->]. by exists [], b. Qed.

Lemma occurs_app_r x a b : Py.occurs x b -> Py.occurs x (a ++ b).
Proof. intros (p & q & ->). exists (a ++ p), q. by rewrite <- app_assoc. Qed.

Lemma occurs_app_l x a b : Py.occurs x a -> Py.occurs x (a ++ b).
Proof. intros (p & q & ->). exists p, (q ++ b). by rewrite <- !app_assoc. Qed.

Lemma occurs_cons x (c : A) s : Py.occurs x s -> Py.occurs x (c :: s).
Proof. apply (occurs_app_r x [c] s). Qed.

Lemma occurs_cons_inv x (c : A) s :
  Py.occurs x (c :: s) -> x `prefix_of` c :: s \/ Py.occurs x s.
Proof.
  intros ([|d p] & q & Hs).
  - left. by exists q.
  - right. injection Hs as _ ->. by exists p, q.
Qed.

(** An occurrence in [a ++ b] lies in [b] or begins inside [a]. *)
Lemma occurs_app_inv x a b :
  Py.occurs x (a ++ b) ->
  Py.occurs x b
  \/ exists a1 a2, a = a1 ++ a2 /\ a2 <> [] /\ x `prefix_of` a2 ++ b.
Proof.
  induction a as [|c a IH]; simpl; [by left|].
  intros [Hpre|Hocc]%occurs_cons_inv.
  - right. by exists [], (c :: a).
  - destruct (IH Hocc) as [?|(a1 & a2 & -> & ? & ?)]; [by left|].
    right. by exists (c :: a1), a2.
Qed.

Lemma occursb_spec x s : Py.occursb x s = true <-> Py.occurs x s.
Proof.
  induction s as [|c s IH]; simpl.
  - rewrite orb_false_r, startswith_true. split.
    + apply occurs_prefix.
    + intros ->%occurs_nil_inv. done.
  - rewrite orb_true_iff, startswith_true, IH. split.
    + intros [?|?]; [by apply occurs_prefix | by apply occurs_cons].
    + apply occurs_cons_inv.
Qed.

#[global] Instance occurs_dec x s : Decision (Py.occurs x s).
Proof.
  refine (cast_if (decide (Py.occursb x s = true))); by rewrite <- occursb_spec.
Defined.

End replacing.

(** *** Texts that cannot overlap *)

Section overlap.
Context {A : Type} `{!EqDecision A}.
Implicit Types k v s x : list A.

Lemma clash_cons (c : A) x k : clash x k -> clash (c :: x) k.
Proof. intros (x1 & x2 & -> & ? & ?). by exists (c :: x1), x2. Qed.

Lemma clash_head x k :
  x <> [] -> k `prefix_of` x \/ x `prefix_of` k -> clash x k.
Proof. intros. by exists [], x. Qed.

Lemma clashb_spec x k : clashb x k = true <-> clash x k.
Proof.
  induction x as [|c x IH]; simpl.
  - split; [done|]. intros (x1 & x2 & Hx & Hne & _).
    symmetry in Hx. by apply app_eq_nil in Hx as [_ ->].
  - rewrite !orb_true_iff, !startswith_true, IH. split.
    + intros [[?|?]|?]; [by apply clash_head; auto..| by apply clash_cons].
    + intros ([|d x1] & x2 & Hx & Hne & Hor).
      * simpl in Hx. subst x2. by left.
      * injection Hx as -> ->. right. by exists x1, x2.
Qed.

#[global] Instance clash_dec x k : Decision (clash x k).
Proof.
  refine (cast_if (decide (clashb x k = true))); by rewrite <- clashb_spec.
Defined.

#[global] Instance apart_dec x y : Decision (apart x y).
Proof. unfold apart. apply _. Defined.

Lemma apart_sym x y : apart x y -> apart y x.
Proof. by intros [? ?]. Qed.

(** Where [x] begins, [k] does not match. *)
Lemma no_clash_no_match x k s :
  x <> [] -> ~ clash x k -> x `prefix_of` s -> ~ k `prefix_of` s.
Proof.
  intros Hx Hno Hxs Hks. apply Hno, clash_head; [done|].
  by apply (prefix_weak_total k x s).
Qed.

(** A beginning that [k] cannot overlap is copied by the scan. *)
Lemma replace_keeps_prefix k v x s :
  k <> [] -> ~ clash x k -> x `prefix_of` s ->
  x `prefix_of` Py.replace k v s.
Proof.
  intros Hk. revert s. induction x as [|c x IH]; intros s Hno Hxs.
  - apply prefix_nil.
  - destruct s as [|d s]; [by apply prefix_nil_not in Hxs|].
    pose proof (prefix_cons_inv_1 _ _ _ _ Hxs) as ->.
    apply prefix_cons_inv_2 in Hxs as Hx.
    rewrite replace_skip; [|done|by apply (no_clash_no_match (d :: x))].
    apply prefix_cons, IH; [|done]. intros Hc. by apply Hno, clash_cons.
Qed.

(** A beginning of the result that [v] cannot overlap was there before. *)
Lemma replace_prefix_inv k v x s :
  k <> [] -> v <> [] -> ~ clash x v ->
  x `prefix_of` Py.replace k v s -> x `prefix_of` s.
Proof.
  intros Hk Hv. revert s. induction x as [|c x IH]; intros s Hno Hxs.
  - apply prefix_nil.
  - destruct s as [|d s].
    { rewrite replace_nil in Hxs by done. by apply prefix_nil_not in Hxs. }
    destruct (decide (k `prefix_of` d :: s)) as [[t Ht]|Hnot].
    + rewrite Ht, replace_match in Hxs by done.
      exfalso. apply Hno, clash_head; [done|].
      apply (prefix_weak_total v (c :: x) (v ++ Py.replace k v t));
        [by eexists | done].
    + rewrite replace_skip in Hxs by done.
      pose proof (prefix_cons_inv_1 _ _ _ _ Hxs) as ->.
      apply prefix_cons_inv_2 in Hxs.
      apply prefix_cons, IH; [|done]. intros Hc. by apply Hno, clash_cons.
Qed.

(** An occurrence that begins inside [a] overlaps [a]. *)
Lemma begins_inside_clash x a a1 a2 b :
  x <> [] -> a = a1 ++ a2 -> a2 <> [] -> x `prefix_of` a2 ++ b -> clash a x.
Proof.
  intros Hx -> Ha2 Hpre. exists a1, a2. split; [done|]. split; [done|].
  apply (prefix_weak_total x a2 (a2 ++ b)); [done | by eexists].
Qed.

(** An occurrence of [x] survives the replacement of a [k] it cannot
    overlap. *)
Lemma replace_keeps_occurrence k v x s :
  k <> [] -> apart x k -> Py.occurs x s -> Py.occurs x (Py.replace k v s).
Proof.
  intros Hk [Hxk Hkx]. destruct (decide (x = [])) as [->|Hx].
  { intros _. apply occurs_nil_l. }
  revert s. refine (replace_scan_ind k _ Hk _ _ _).
  - by intros ->%occurs_nil_inv.
  - intros s IH Hocc. rewrite replace_match by done.
    apply occurs_app_r, IH.
    apply occurs_app_inv in Hocc as [?|(a1 & a2 & Ha & Ha2 & Hpre)]; [done|].
    exfalso. by apply Hkx, (begins_inside_clash x k a1 a2 s).
  - intros c s Hnot IH Hocc. rewrite replace_skip by done.
    apply occurs_cons_inv in Hocc as [Hpre|Hocc].
    + apply occurs_prefix. rewrite <- (replace_skip k v) by done.
      by apply replace_keeps_prefix.
    + by apply occurs_cons, IH.
Qed.

(** The replacement by [v] creates no occurrence of an [x] that [v] cannot
    overlap. *)
Lemma replace_no_new_occurrence k v x s :
  k <> [] -> v <> [] -> apart x v ->
  ~ Py.occurs x s -> ~ Py.occurs x (Py.replace k v s).
Proof.
  intros Hk Hv [Hxv Hvx]. destruct (decide (x = [])) as [->|Hx].
  { intros Hno. destruct Hno. apply occurs_nil_l. }
  revert s. refine (replace_scan_ind k _ Hk _ _ _).
  - intros Hno. by rewrite replace_nil.
  - intros s IH Hno. rewrite replace_match by done.
    intros [Hr|(a1 & a2 & Ha & Ha2 & Hpre)]%occurs_app_inv.
    + apply IH; [|done]. intros Hs. by apply Hno, occurs_app_r.
    + by apply Hvx, (begins_inside_clash x v a1 a2 (Py.replace k v s)).
  - intros c s Hnot IH Hno. rewrite replace_skip by done.
    intros [Hpre|Hocc]%occurs_cons_inv.
    + apply Hno, occurs_prefix.
      rewrite <- (replace_skip k v) in Hpre by done.
      by apply (replace_prefix_inv k v).
    + apply IH; [|done]. intros Hs. by apply Hno, occurs_cons.
Qed.

(** After its own replacement a token is gone, when its value cannot
    overlap it. *)
Lemma replace_removes k v s :
  k <> [] -> v <> [] -> apart k v -> ~ Py.occurs k (Py.replace k v s).
Proof.
  intros Hk Hv [Hkv Hvk]. revert s. refine (replace_scan_ind k _ Hk _ _ _).
  - rewrite replace_nil by done. by intros ->%occurs_nil_inv.
  - intros s IH. rewrite replace_match by done.
    intros [Hr|(a1 & a2 & Ha & Ha2 & Hpre)]%occurs_app_inv; [done|].
    by apply Hvk, (begins_inside_clash k v a1 a2 (Py.replace k v s)).
  - intros c s Hnot IH. rewrite replace_skip by done.
    intros [Hpre|Hocc]%occurs_cons_inv; [|done].
    apply Hnot. rewrite <- (replace_skip k v) in Hpre by done.
    by apply (replace_prefix_inv k v).
Qed.

(** Replacing a token that occurs leaves its value in the text. *)
Lemma replace_inserts k v s :
  k <> [] -> Py.occurs k s -> Py.occurs v (Py.replace k v s).
Proof.
  intros Hk. revert s. refine (replace_scan_ind k _ Hk _ _ _).
  - by intros ->%occurs_nil_inv.
  - intros s _ _. rewrite replace_match by done.
    apply occurs_prefix. by eexists.
  - intros c s Hnot IH Hocc. rewrite replace_skip by done.
    apply occurs_cons_inv in Hocc as [?|Hocc]; [done|].
    by apply occurs_cons, IH.
Qed.

End overlap.

(** ** Substitution maps *)

#[global] Instance pairwise_dec {X} (R : X -> X -> Prop)
    `{!forall x y, Decision (R x y)} (l : list X) : Decision (pairwise R l).
Proof. induction l; simpl; apply _. Defined.

Lemma replace_all_cons (k v : text) (d : dict) (s : text) :
  replace_all ((k, v) :: d) s = replace_all d (Py.replace k v s).
Proof. done. Qed.

Lemma replace_all_app (d1 d2 : dict) (s : text) :
  replace_all (d1 ++ d2) s = replace_all d2 (replace_all d1 s).
Proof. apply fold_left_app. Qed.

Lemma separated_cons_inv (k v : text) (d : dict) :
  separated ((k, v) :: d) ->
  k <> [] /\ v <> [] /\ apart k v
  /\ Forall (apart k) (values d)
  /\ Forall (fun k' => apart k' v) (tokens d)
  /\ separated d.
Proof.
  intros (Hk & Hv & Hkv). simpl in *.
  apply Forall_cons in Hk as [Hk Hks]. apply Forall_cons in Hv as [Hv Hvs].
  apply Forall_cons in Hkv as [Hk1 Hrest].
  apply Forall_cons in Hk1 as [Hkv Hkvs].
  do 4 (split; [done|]). split; [|split; [done|split; [done|]]].
  - eapply Forall_impl; [exact Hrest|]. simpl.
    by intros k' [? _]%Forall_cons.
  - eapply Forall_impl; [exact Hrest|]. simpl.
    by intros k' [_ ?]%Forall_cons.
Qed.

Lemma replace_all_keeps_occurrence (x : text) (d : dict) (s : text) :
  Forall (fun k => k <> [] /\ apart x k) (tokens d) ->
  Py.occurs x s -> Py.occurs x (replace_all d s).
Proof.
  revert s. induction d as [|[k v] d IH]; intros s Hd Hocc; [done|].
  simpl in Hd. apply Forall_cons in Hd as [[Hk Hxk] Hd].
  rewrite replace_all_cons. apply IH; [done|].
  by apply replace_keeps_occurrence.
Qed.

Lemma replace_all_no_new_occurrence (x : text) (d : dict) (s : text) :
  Forall (fun k => k <> []) (tokens d) ->
  Forall (fun v => v <> [] /\ apart x v) (values d) ->
  ~ Py.occurs x s -> ~ Py.occurs x (replace_all d s).
Proof.
  revert s. induction d as [|[k v] d IH]; intros s Hk Hv Hno; [done|].
  simpl in Hk, Hv. apply Forall_cons in Hk as [Hk Hks].
  apply Forall_cons in Hv as [[Hv Hxv] Hvs].
  rewrite replace_all_cons. apply IH; [done..|].
  by apply replace_no_new_occurrence.
Qed.

(** No token is left. *)
Lemma replace_all_removes (d : dict) (s : text) :
  separated d ->
  forall k, k ∈ tokens d -> ~ Py.occurs k (replace_all d s).
Proof.
  revert s. induction d as [|[k1 v1] d IH]; intros s Hsep k Hin.
  { by apply elem_of_nil in Hin. }
  pose proof Hsep as (Hk1 & Hv1 & Hkv & Hkvs & Hksv & Hd)%separated_cons_inv.
  rewrite replace_all_cons. simpl in Hin.
  apply elem_of_cons in Hin as [->|Hin]; [|by apply IH].
  destruct Hd as (Hks & Hvs & _).
  apply replace_all_no_new_occurrence; [done| |by apply replace_removes].
  apply Forall_forall. intros v Hv. split.
  - by apply (proj1 (Forall_forall _ _) Hvs).
  - by apply (proj1 (Forall_forall _ _) Hkvs).
Qed.

(** Every value is there, when the tokens were and cannot overlap. *)
Lemma replace_all_inserts (d : dict) (s : text) :
  separated d -> tokens_apart d ->
  (forall k, k ∈ tokens d -> Py.occurs k s) ->
  forall v, v ∈ values d -> Py.occurs v (replace_all d s).
Proof.
  revert s. induction d as [|[k1 v1] d IH]; intros s Hsep Hap Hocc v Hin.
  { by apply elem_of_nil in Hin. }
  pose proof Hsep as (Hk1 & Hv1 & Hkv & Hkvs & Hksv & Hd)%separated_cons_inv.
  destruct Hap as [Hk1ks Hap]. fold (tokens d) in Hk1ks.
  fold (tokens_apart d) in Hap.
  rewrite replace_all_cons. simpl in Hin.
  assert (Forall (fun k => k <> []) (tokens d)) as Hks by apply Hd.
  apply elem_of_cons in Hin as [->|Hin].
  - apply replace_all_keeps_occurrence.
    + apply Forall_forall. intros k Hk. split.
      * by apply (proj1 (Forall_forall _ _) Hks).
      * apply apart_sym. by apply (proj1 (Forall_forall _ _) Hksv).
    + apply replace_inserts; [done|]. apply Hocc. by left.
  - apply IH; [done..| |done]. intros k Hk.
    apply replace_keeps_occurrence; [done| |].
    + apply apart_sym. by apply (proj1 (Forall_forall _ _) Hk1ks).
    + apply Hocc. by right.
Qed.

Lemma replace_in_file_result (filename : path) (repl_dict : dict)
    (template : text) (w : World) :
  fs w !! filename = Some (File template) ->
  _replace_in_file filename repl_dict w
  = (Return tt,
     with_fs (<[filename := File (replace_all repl_dict template)]> (fs w)) w).
Proof.
  intros Hfile. unfold _replace_in_file, bind, read_file, write_file.
  rewrite Hfile. simpl. by rewrite Hfile.
Qed.

(** C5, as the code has it.  For a substitution map that is [separated],
    the file written by [_replace_in_file] has no occurrence of any token;
    when moreover no two tokens can overlap and every token occurs in the
    template, it has an occurrence of every replacement value. *)
Theorem replace_in_file_round_trip (filename : path) (repl_dict : dict)
    (template : text) (w : World) :
  fs w !! filename = Some (File template) ->
  separated repl_dict ->
  exists out w',
    _replace_in_file filename repl_dict w = (Return tt, w')
    /\ fs w' !! filename = Some (File out)
    /\ (forall k, k ∈ tokens repl_dict -> ~ Py.occurs k out)
    /\ (tokens_apart repl_dict ->
        (forall k, k ∈ tokens repl_dict -> Py.occurs k template) ->
        forall v, v ∈ values repl_dict -> Py.occurs v out).
Proof.
  intros Hfile Hsep. eexists _, _.
  split; [by apply replace_in_file_result|].
  split; [apply lookup_insert_eq|]. split.
  - by apply replace_all_removes.
  - intros Hap Hocc. by apply replace_all_inserts.
Qed.

Lemma replace_in_file_round_trip_witness :
  exists out w',
    _replace_in_file script times_dict times_world = (Return tt, w')
    /\ fs w' !! script = Some (File out)
    /\ (forall k, k ∈ tokens times_dict -> ~ Py.occurs k out)
    /\ (forall v, v ∈ values times_dict -> Py.occurs v out).
Proof.
  assert (fs times_world !! script = Some (File times_template)) as Hfile
    by (vm_compute; reflexivity).
  assert (separated times_dict) as Hsep
    by (apply (bool_decide_unpack _); vm_compute; exact I).
  assert (tokens_apart times_dict) as Hap
    by (apply (bool_decide_unpack _); vm_compute; exact I).
  assert (forall k, k ∈ tokens times_dict -> Py.occurs k times_template)
    as Hocc
    by (apply Forall_forall, (bool_decide_unpack _); vm_compute; exact I).
  destruct (replace_in_file_round_trip script times_dict times_template
              times_world Hfile Hsep) as (out & w' & Hrun & Hout & Hno & Hin).
  exists out, w'.
  exact (conj Hrun (conj Hout (conj Hno (Hin Hap Hocc)))).
Defined.

(** C5 as stated fails: every token of the map is a placeholder of the
    template, and yet the file written has an occurrence of the first token
    (brought in by the second value) and none of the first value (broken up
    by the second replacement). *)
Lemma replace_in_file_leaves_token :
  (forall k, k ∈ tokens crossed_dict -> Py.occurs k import_template)
  /\ (_replace_in_file script crossed_dict import_world).1 = Return tt
  /\ fs (_replace_in_file script crossed_dict import_world).2 !! script
     = Some (File (replace_all crossed_dict import_template))
  /\ Py.occurs (str "PACKAGE_FOLDER") (replace_all crossed_dict import_template)
  /\ ~ Py.occurs (str "/data/RESULT_FOLDER/lib")
         (replace_all crossed_dict import_template).
Proof.
  split; [|split; [|split; [|split]]].
  - apply Forall_forall, (bool_decide_unpack _). vm_compute. exact I.
  - vm_compute. reflexivity.
  - vm_compute. reflexivity.
  - apply occursb_spec. vm_compute. reflexivity.
  - intros Hocc%occursb_spec. vm_compute in Hocc. discriminate.
Qed.

(** ** One replacement, occurrence by occurrence *)

Section every_occurrence.
Context {A : Type} `{!EqDecision A}.
Implicit Types k v s u : list A.

Lemma gap_nil k : gap k [].
Proof.
  intros a b Hk. apply (f_equal length) in Hk.
  rewrite !length_app in Hk. simpl in Hk.
  destruct b; [done|]. simpl in Hk. lia.
Qed.

Lemma gap_cons_inv (c : A) k u : gap k (c :: u) -> gap k u.
Proof. intros Hg a b Huk. apply (Hg (c :: a) b). simpl. by rewrite Huk. Qed.

Lemma gap_no_match (c : A) k u s :
  gap k (c :: u) -> ~ k `prefix_of` (c :: u) ++ k ++ s.
Proof.
  intros Hg Hpre.
  assert (k `prefix_of` (c :: u) ++ k) as [b Hb].
  { destruct (prefix_weak_total k ((c :: u) ++ k) ((c :: u) ++ k ++ s))
      as [Hle|Hle]; [done | rewrite app_assoc; by eexists | done |].
    apply prefix_length in Hle. rewrite length_app in Hle.
    simpl in Hle. lia. }
  pose proof (Hg [] b Hb) as ->. rewrite app_nil_r in Hb.
  apply (f_equal length) in Hb. rewrite length_app in Hb. simpl in Hb. lia.
Qed.

(** Up to and including its next occurrence. *)
Lemma replace_gap k v u s :
  k <> [] -> gap k u ->
  Py.replace k v (u ++ k ++ s) = u ++ v ++ Py.replace k v s.
Proof.
  intros Hk. induction u as [|c u IH]; intros Hg; simpl.
  - by apply replace_match.
  - rewrite replace_skip; [|done|by apply (gap_no_match c k u s)].
    f_equal. apply IH. by apply gap_cons_inv in Hg.
Qed.

(** A text without the token is left as it is. *)
Lemma replace_absent k v s :
  k <> [] -> ~ Py.occurs k s -> Py.replace k v s = s.
Proof.
  intros Hk. revert s. refine (replace_scan_ind k _ Hk _ _ _).
  - intros _. by apply replace_nil.
  - intros s _ Hno. destruct Hno. apply occurs_prefix. by eexists.
  - intros c s Hnot IH Hno. rewrite replace_skip by done. f_equal.
    apply IH. intros Hs. by apply Hno, occurs_cons.
Qed.

(** Every occurrence of the scan is replaced, and nothing else changes. *)
Lemma replace_every_occurrence k v (gaps : list (list A)) (rest : list A) :
  k <> [] -> Forall (gap k) gaps -> ~ Py.occurs k rest ->
  Py.replace k v (concat (map (fun u => u ++ k) gaps) ++ rest)
  = concat (map (fun u => u ++ v) gaps) ++ rest.
Proof.
  intros Hk Hgaps Hrest. induction Hgaps as [|u gaps Hu _ IH]; simpl.
  - by apply replace_absent.
  - rewrite <- !app_assoc, replace_gap by done. by rewrite IH.
Qed.

(** Every text is such a sequence of occurrences. *)
Lemma occurrences_exist k s :
  k <> [] ->
  exists (gaps : list (list A)) (rest : list A),
    s = concat (map (fun u => u ++ k) gaps) ++ rest
    /\ Forall (gap k) gaps /\ ~ Py.occurs k rest.
Proof.
  intros Hk. revert s. refine (replace_scan_ind k _ Hk _ _ _).
  - exists [], []. split; [done|]. split; [done|].
    by intros ->%occurs_nil_inv.
  - intros s (gaps & rest & -> & Hgaps & Hrest).
    exists ([] :: gaps), rest. simpl. split; [by rewrite app_assoc|].
    split; [|done]. constructor; [apply gap_nil | done].
  - intros c s Hnot (gaps & rest & -> & Hgaps & Hrest).
    destruct gaps as [|u gaps].
    + exists [], (c :: rest). simpl in *. split; [done|]. split; [done|].
      by intros [?|?]%occurs_cons_inv.
    + exists ((c :: u) :: gaps), rest. simpl.
      split; [by rewrite <- !app_assoc|].
      split; [|done]. apply Forall_cons in Hgaps as [Hu Hgaps].
      constructor; [|done].
      intros [|d a] b Hab; simpl in Hab.
      * destruct Hnot. simpl. rewrite <- app_assoc.
        rewrite app_comm_cons, Hab, <- !app_assoc. by eexists.
      * injection Hab as <- Hab. by apply (Hu a b).
Qed.

End every_occurrence.

(** C6 as stated fails: the second replacement does scan the text the
    first one produced.  The value of [PACKAGE_FOLDER] contains the text
    [RESULT_FOLDER], which the code replaces and a substitution that does
    not re-scan would keep. *)
Lemma later_replacement_rescans :
  fs (_replace_in_file script crossed_dict import_world).2 !! script
  = Some (File (replace_all crossed_dict import_template))
  /\ Py.occurs (str "/data/RESULT_FOLDER/lib")
       (replace_all_no_rescan crossed_dict import_template)
  /\ ~ Py.occurs (str "/data/RESULT_FOLDER/lib")
         (replace_all crossed_dict import_template)
  /\ replace_all crossed_dict import_template
     <> replace_all_no_rescan crossed_dict import_template.
Proof.
  split; [|split; [|split]].
  - vm_compute. reflexivity.
  - apply occursb_spec. vm_compute. reflexivity.
  - intros Hocc%occursb_spec. vm_compute in Hocc. discriminate.
  - vm_compute. discriminate.
Qed.

(** C6, as the code has it.  [_replace_in_file] applies the replacements
    in the order of the mapping, each to the whole text the ones before
    left: splitting the mapping in two, the second part works on the result
    of the first.  One replacement replaces every occurrence found by a
    scan from the left and changes nothing else; the value it inserts is
    not scanned again by that replacement, but it is by the next ones. *)
Theorem replace_in_file_sequential (filename : path) (d1 d2 : dict)
    (template : text) (w : World) :
  fs w !! filename = Some (File template) ->
  _replace_in_file filename (d1 ++ d2) w
  = (Return tt,
     with_fs (<[filename := File (replace_all d2 (replace_all d1 template))]>
                (fs w)) w)
  /\ (forall (k v s : text), k <> [] ->
        exists gaps rest,
          s = concat (map (fun u => u ++ k) gaps) ++ rest
          /\ Forall (gap k) gaps /\ ~ Py.occurs k rest
          /\ replace_all [(k, v)] s
             = concat (map (fun u => u ++ v) gaps) ++ rest)
  /\ (forall (k v s : text), k <> [] ->
        replace_all [(k, v)] (k ++ s) = v ++ replace_all [(k, v)] s)
  /\ (forall (k1 v1 k2 v2 : text), k1 <> [] ->
        replace_all [(k1, v1); (k2, v2)] k1 = Py.replace k2 v2 v1).
Proof.
  intros Hfile. split; [|split; [|split]].
  - rewrite (replace_in_file_result _ _ template) by done.
    by rewrite replace_all_app.
  - intros k v s Hk.
    destruct (occurrences_exist k s Hk) as (gaps & rest & Hs & Hgaps & Hrest).
    exists gaps, rest. split; [done|]. split; [done|]. split; [done|].
    rewrite Hs. by apply replace_every_occurrence.
  - intros k v s Hk. by apply replace_match.
  - intros k1 v1 k2 v2 Hk1. unfold replace_all. simpl.
    rewrite <- (app_nil_r k1) at 2.
    rewrite replace_match, replace_nil by done. by rewrite app_nil_r.
Qed.

Lemma replace_in_file_sequential_witness :
  _replace_in_file script ([(str "START_TIME", str "0.0")]
                           ++ [(str "STOP_TIME", str "1.0")]) times_world
  = (Return tt,
     with_fs (<[script := File (replace_all [(str "STOP_TIME", str "1.0")]
                                 (replace_all [(str "START_TIME", str "0.0")]
                                    times_template))]>
                (fs times_world)) times_world).
Proof.
  refine (proj1 (replace_in_file_sequential script
                   [(str "START_TIME", str "0.0")]
                   [(str "STOP_TIME", str "1.0")] times_template times_world _)).
  vm_compute. reflexivity.
Defined.

(** * Further properties of the code *)

(** ** The confirmation dialogue, for any number of asks *)

Lemma ask_confirmation_answer question (n : nat) (pre : list text) (a : text)
    (rest : list text) (w : World) (b : bool) :
  Forall invalid pre -> length pre < n -> stdin w = pre ++ a :: rest ->
  Py.lower (Py.strip a) = str (if b then "yes" else "no") ->
  _ask_confirmation question n w
  = (Return b, asked question (S (length pre)) rest w).
Proof.
  intros Hpre Hlen Hin Ha. unfold _ask_confirmation, bind.
  rewrite (ask_loop_invalid question pre (a :: rest) Hpre n w Hin) by lia.
  destruct (n - length pre) as [|m] eqn:E; [lia|].
  rewrite (ask_loop_answer question m a rest _ b); [|done..].
  rewrite asked_asked. by rewrite Nat.add_1_r.
Qed.

Lemma ask_confirmation_exhausted question (n : nat) (pre rest : list text)
    (w : World) :
  Forall invalid pre -> n <= length pre -> stdin w = pre ++ rest ->
  _ask_confirmation question n w
  = (Raise ValueError, asked question n (drop n pre ++ rest) w).
Proof.
  intros Hpre Hlen Hin. unfold _ask_confirmation, bind.
  assert (length (take n pre) = n) as Htake by (rewrite length_take; lia).
  rewrite (ask_loop_invalid question (take n pre) (drop n pre ++ rest)).
  - rewrite Htake, Nat.sub_diag. done.
  - by apply Forall_take.
  - by rewrite app_assoc, take_drop.
  - lia.
Qed.

Lemma ask_confirmation_eof question (n : nat) (pre : list text) (w : World) :
  Forall invalid pre -> length pre < n -> stdin w = pre ->
  _ask_confirmation question n w
  = (Raise EOFError, asked question (S (length pre)) [] w).
Proof.
  intros Hpre Hlen Hin. unfold _ask_confirmation, bind.
  rewrite (ask_loop_invalid question pre (@nil text) Hpre n w);
    [| by rewrite app_nil_r | lia].
  destruct (n - length pre) as [|m] eqn:E; [lia|].
  simpl. unfold bind, print_noend, input. simpl.
  unfold asked. simpl. do 3 f_equal.
  rewrite <- app_assoc. f_equal. by rewrite repeat_cons.
Qed.

(** X1: [_ask_confirmation] for any number of asks.  The first valid
    answer decides and what follows it is left unread; when the input ends
    before a valid answer and before the asks are used up, [input()] raises
    [EOFError]; when the asks are used up, [ValueError] is raised with only
    that many lines read (none, and no prompt, for zero asks). *)
Theorem ask_confirmation_any_budget (question : text) (max_asks : nat)
    (w : World) (pre rest : list text) :
  Forall invalid pre ->
  (forall (a : text) (b : bool),
     length pre < max_asks -> stdin w = pre ++ a :: rest ->
     Py.lower (Py.strip a) = str (if b then "yes" else "no") ->
     _ask_confirmation question max_asks w
     = (Return b, asked question (S (length pre)) rest w))
  /\ (length pre < max_asks -> stdin w = pre ->
      _ask_confirmation question max_asks w
      = (Raise EOFError, asked question (S (length pre)) [] w))
  /\ (max_asks <= length pre -> stdin w = pre ++ rest ->
      _ask_confirmation question max_asks w
      = (Raise ValueError,
         asked question max_asks (drop max_asks pre ++ rest) w)).
Proof.
  intros Hpre. split; [|split].
  - intros a b. by apply ask_confirmation_answer.
  - by apply ask_confirmation_eof.
  - by apply ask_confirmation_exhausted.
Qed.

Lemma ask_confirmation_any_budget_witness :
  _ask_confirmation (str "Delete?") 2
    (mkWorld ∅ [] [str "maybe"; str "no"; str "yes"] [])
  = (Return false,
     asked (str "Delete?") 2 [str "yes"]
       (mkWorld ∅ [] [str "maybe"; str "no"; str "yes"] []))
  /\ _ask_confirmation (str "Delete?") 2 (mkWorld ∅ [] [str "maybe"] [])
     = (Raise EOFError,
        asked (str "Delete?") 2 [] (mkWorld ∅ [] [str "maybe"] []))
  /\ _ask_confirmation (str "Delete?") 0 (mkWorld ∅ [] [str "yes"] [])
     = (Raise ValueError,
        asked (str "Delete?") 0 [str "yes"] (mkWorld ∅ [] [str "yes"] [])).
Proof.
  split; [|split].
  - refine (proj1 (ask_confirmation_any_budget (str "Delete?") 2 _
                     [str "maybe"] [str "yes"] _) (str "no") false _ _ _).
    + repeat constructor; discriminate.
    + simpl. lia.
    + reflexivity.
    + reflexivity.
  - refine (proj1 (proj2 (ask_confirmation_any_budget (str "Delete?") 2 _
                            [str "maybe"] [] _)) _ _).
    + repeat constructor; discriminate.
    + simpl. lia.
    + reflexivity.
  - refine (proj2 (proj2 (ask_confirmation_any_budget (str "Delete?") 0 _
                            [] [str "yes"] _)) _ _).
    + constructor.
    + simpl. lia.
    + reflexivity.
Defined.

(** ** Cleaning up, with and without the dialogue *)

Lemma remove_tree_lookup (p q : path) (f : gmap path node) :
  remove_tree p f !! q = if decide (p `prefix_of` q) then None else f !! q.
Proof.
  unfold remove_tree. case_decide as Hpq.
  - apply map_lookup_filter_None. right. intros x _ Hn. by apply Hn.
  - destruct (f !! q) as [x|] eqn:E.
    + by apply map_lookup_filter_Some_2.
    + apply map_lookup_filter_None. by left.
Qed.

Lemma cleanup_confirmed (H : Host) (s : Sys) :
  result_folder_created (self s) = true ->
  cleanup H true s =
  match _ask_confirmation
          ([nl] ++ str "Do you want to delete the folder " ++ [nl; nl; tab]
             ++ path_str H (result_folder_path (self s)) ++ [nl; nl]
             ++ str "and all its subfolders?") 5 (world s) with
  | (Return true, w) =>
      match rmtree (result_folder_path (self s)) w with
      | (o, w') => (o, mkSys (self s) w')
      end
  | (Return false, w) => (Return tt, mkSys (self s) w)
  | (Raise e, w) => (Raise e, mkSys (self s) w)
  end.
Proof.
  intros Hflag. unfold cleanup, bind, get_self, in_world. simpl.
  rewrite Hflag. simpl.
  destruct (_ask_confirmation _ 5 (world s)) as [[[]|e] w]; simpl; try done.
Qed.

(** X2: [cleanup] with the dialogue, for a folder the run created.  A yes
    removes the folder, a no leaves the file system as it is and returns
    normally; five invalid answers raise [ValueError] and an input that
    ends raises [EOFError], both with nothing deleted. *)
Theorem cleanup_asks_before_deleting (H : Host) (s : Sys)
    (pre rest : list text) :
  result_folder_created (self s) = true ->
  Forall invalid pre ->
  (forall a, length pre < 5 -> stdin (world s) = pre ++ a :: rest ->
     reads_as (str "yes") a ->
     fs (world s) !! result_folder_path (self s) = Some Dir ->
     (cleanup H true s).1 = Return tt
     /\ fs (world (cleanup H true s).2)
        = remove_tree (result_folder_path (self s)) (fs (world s))
     /\ stdin (world (cleanup H true s).2) = rest)
  /\ (forall a, length pre < 5 -> stdin (world s) = pre ++ a :: rest ->
      reads_as (str "no") a ->
      (cleanup H true s).1 = Return tt
      /\ fs (world (cleanup H true s).2) = fs (world s)
      /\ stdin (world (cleanup H true s).2) = rest)
  /\ (length pre = 5 -> stdin (world s) = pre ++ rest ->
      (cleanup H true s).1 = Raise ValueError
      /\ fs (world (cleanup H true s).2) = fs (world s)
      /\ stdin (world (cleanup H true s).2) = rest)
  /\ (length pre < 5 -> stdin (world s) = pre ->
      (cleanup H true s).1 = Raise EOFError
      /\ fs (world (cleanup H true s).2) = fs (world s)).
Proof.
  intros Hflag Hpre. rewrite (cleanup_confirmed H s Hflag).
  split; [|split; [|split]].
  - intros a Hlen Hin Ha Hdir.
    rewrite (ask_confirmation_answer _ 5 pre a rest (world s) true);
      [|done..|by apply reads_as_yes].
    unfold rmtree. simpl. rewrite Hdir. done.
  - intros a Hlen Hin Ha.
    rewrite (ask_confirmation_answer _ 5 pre a rest (world s) false);
      [|done..|by apply reads_as_no].
    done.
  - intros Hlen Hin.
    rewrite (ask_confirmation_exhausted _ 5 pre rest (world s));
      [|done|lia|done].
    simpl. rewrite drop_ge by lia. done.
  - intros Hlen Hin.
    by rewrite (ask_confirmation_eof _ 5 pre (world s)).
Qed.

Lemma cleanup_asks_before_deleting_witness :
  (cleanup (example_host good_log) true
     (mkSys (self example_after_run)
        (with_stdin [str "perhaps"; str " No "] (world example_after_run)))).1
  = Return tt
  /\ fs (world (cleanup (example_host good_log) true
                  (mkSys (self example_after_run)
                     (with_stdin [str "perhaps"; str " No "]
                        (world example_after_run)))).2)
     = fs (world example_after_run)
  /\ stdin (world (cleanup (example_host good_log) true
                     (mkSys (self example_after_run)
                        (with_stdin [str "perhaps"; str " No "]
                           (world example_after_run)))).2)
     = [].
Proof.
  refine (proj1 (proj2 (cleanup_asks_before_deleting (example_host good_log)
            (mkSys (self example_after_run)
               (with_stdin [str "perhaps"; str " No "]
                  (world example_after_run)))
            [str "perhaps"] [] _ _)) (str " No ") _ _ _).
  - vm_compute. reflexivity.
  - repeat constructor; discriminate.
  - simpl. lia.
  - reflexivity.
  - exists (str " "), (str "No"), (str " ").
    repeat split; repeat constructor.
Defined.

(** X3: [cleanup(False)] removes the result folder and all that is below
    it, and nothing else: every other path of the file system, the working
    directory and the standard input are as before. *)
Theorem cleanup_removes_the_folder_only (H : Host) (s : Sys) :
  result_folder_created (self s) = true ->
  fs (world s) !! result_folder_path (self s) = Some Dir ->
  (cleanup H false s).1 = Return tt
  /\ (forall q,
        fs (world (cleanup H false s).2) !! q
        = if decide (result_folder_path (self s) `prefix_of` q)
          then None else fs (world s) !! q)
  /\ cwd (world (cleanup H false s).2) = cwd (world s)
  /\ stdin (world (cleanup H false s).2) = stdin (world s)
  /\ stdout (world (cleanup H false s).2) = stdout (world s).
Proof.
  intros Hflag Hdir.
  unfold cleanup, bind, get_self, in_world, rmtree. simpl.
  rewrite Hflag. simpl. rewrite Hdir. simpl.
  split; [done|]. split; [|done]. intros q. apply remove_tree_lookup.
Qed.

Lemma cleanup_removes_the_folder_only_witness :
  (cleanup (example_host good_log) false example_after_run).1 = Return tt
  /\ (forall q,
        fs (world (cleanup (example_host good_log) false
                     example_after_run).2) !! q
        = if decide (result_folder_path (self example_after_run)
                       `prefix_of` q)
          then None else fs (world example_after_run) !! q)
  /\ cwd (world (cleanup (example_host good_log) false example_after_run).2)
     = cwd (world example_after_run)
  /\ stdin (world (cleanup (example_host good_log) false example_after_run).2)
     = stdin (world example_after_run)
  /\ stdout (world (cleanup (example_host good_log) false example_after_run).2)
     = stdout (world example_after_run).
Proof.
  refine (cleanup_removes_the_folder_only (example_host good_log)
            example_after_run _ _).
  - vm_compute. reflexivity.
  - vm_compute. reflexivity.
Defined.

(** ** Entering the result folder *)

(** The whole effect of lines 98-105, by the state of the result folder. *)
Lemma enter_result_folder_cases (s : Sys) :
  enter_result_folder s =
  match fs (world s) !! result_folder_path (self s) with
  | Some Dir =>
      (Return tt,
       mkSys (self s) (with_cwd (result_folder_path (self s)) (announced_run s)))
  | Some (File _) => (Raise NotADirectoryError, mkSys (self s) (announced_run s))
  | None =>
      match fs (world s) !! parent (result_folder_path (self s)) with
      | Some Dir =>
          (Return tt,
           mkSys (with_result_folder_created true (self s))
             (with_cwd (result_folder_path (self s))
                (with_fs (<[result_folder_path (self s) := Dir]> (fs (world s)))
                   (announced_run s))))
      | Some (File _) =>
          (Raise NotADirectoryError, mkSys (self s) (announced_run s))
      | None => (Raise FileNotFoundError, mkSys (self s) (announced_run s))
      end
  end.
Proof.
  unfold enter_result_folder, announced_run, bind, get_self, in_world,
    path_exists, print, set_result_folder_created, mkdir, chdir, ret.
  simpl.
  destruct (fs (world s) !! result_folder_path (self s)) as [[|c]|] eqn:E;
    simpl; rewrite ?E; simpl; try done.
  destruct (fs (world s) !! parent (result_folder_path (self s)))
    as [[|c]|]; simpl; try done.
  by rewrite lookup_insert_eq.
Qed.

(** X4: [mkdir] is not recursive and the result folder must be a
    directory.  When the result folder is absent and its parent is not a
    directory, or when it is a regular file, [_import_and_simulate] raises
    ([FileNotFoundError] for the missing parent, [NotADirectoryError]
    otherwise) before any tool is run: apart from the line printed, the
    file system, the working directory and the instance are as before. *)
Theorem import_and_simulate_cannot_enter (H : Host) (s : Sys) :
  fs (world s) !! result_folder_path (self s) <> Some Dir ->
  (fs (world s) !! result_folder_path (self s) = None ->
   fs (world s) !! parent (result_folder_path (self s)) <> Some Dir) ->
  _import_and_simulate H s
  = (Raise (if decide (fs (world s) !! result_folder_path (self s) = None
                       /\ fs (world s) !! parent (result_folder_path (self s))
                          = None)
            then FileNotFoundError else NotADirectoryError),
     mkSys (self s) (announced_run s)).
Proof.
  intros Hdir Hparent.
  rewrite import_and_simulate_enter, enter_result_folder_cases.
  destruct (fs (world s) !! result_folder_path (self s)) as [[|c]|] eqn:E.
  - done.
  - rewrite decide_False; [done|]. by intros [? _].
  - specialize (Hparent eq_refl).
    destruct (fs (world s) !! parent (result_folder_path (self s)))
      as [[|c]|] eqn:E'.
    + done.
    + rewrite decide_False; [done|]. by intros [_ ?].
    + by rewrite decide_True.
Qed.

Lemma import_and_simulate_cannot_enter_witness :
  _import_and_simulate (example_host good_log)
    (mkSys (mkRegressionTest [] [] (str "Sine")
              [str "home"; str "runs"; str "out"] [str "home"]
              [str "omc"] false)
       example_world)
  = (Raise (if decide (fs example_world !! [str "home"; str "runs"; str "out"]
                       = None
                       /\ fs example_world
                            !! parent [str "home"; str "runs"; str "out"]
                          = None)
            then FileNotFoundError else NotADirectoryError),
     mkSys (mkRegressionTest [] [] (str "Sine")
              [str "home"; str "runs"; str "out"] [str "home"]
              [str "omc"] false)
       (announced_run
          (mkSys (mkRegressionTest [] [] (str "Sine")
                    [str "home"; str "runs"; str "out"] [str "home"]
                    [str "omc"] false)
             example_world))).
Proof.
  refine (import_and_simulate_cannot_enter (example_host good_log)
            (mkSys (mkRegressionTest [] [] (str "Sine")
                      [str "home"; str "runs"; str "out"] [str "home"]
                      [str "omc"] false)
               example_world) _ _).
  - vm_compute. discriminate.
  - intros _. vm_compute. discriminate.
Defined.

(** ** Running, then cleaning up *)

(** X5: a run followed by [cleanup].  A result folder that was there
    before the run survives [cleanup], asked or not: nothing the run left is
    deleted.  A result folder the run created, and that is still a
    directory after it, is removed by [cleanup(False)] with all that is
    below it. *)
Theorem run_then_cleanup (H : Host) (s : Sys) (ask : bool) :
  result_folder_created (self s) = false ->
  (is_Some (fs (world s) !! result_folder_path (self s)) ->
   (cleanup H ask (_import_and_simulate H s).2).1 = Return tt
   /\ fs (world (cleanup H ask (_import_and_simulate H s).2).2)
      = fs (world (_import_and_simulate H s).2))
  /\ (fs (world s) !! result_folder_path (self s) = None ->
      fs (world (_import_and_simulate H s).2) !! result_folder_path (self s)
      = Some Dir ->
      (cleanup H false (_import_and_simulate H s).2).1 = Return tt
      /\ forall q,
           result_folder_path (self s) `prefix_of` q ->
           fs (world (cleanup H false (_import_and_simulate H s).2).2) !! q
           = None).
Proof.
  intros Hflag.
  pose proof (import_and_simulate_self H s) as Hself.
  pose proof (enter_result_folder_cases s) as Henter.
  split.
  - intros [n Hn]. rewrite Hn in Henter.
    assert (self (_import_and_simulate H s).2 = self s) as Hs.
    { rewrite Hself. by destruct n; rewrite Henter. }
    unfold cleanup, bind, get_self, in_world, print. simpl.
    rewrite Hs, Hflag. done.
  - intros Habsent Hdir. rewrite Habsent in Henter.
    destruct (fs (world s) !! parent (result_folder_path (self s)))
      as [[|c]|] eqn:Hp.
    + assert (self (_import_and_simulate H s).2
              = with_result_folder_created true (self s)) as Hs.
      { by rewrite Hself, Henter. }
      unfold cleanup, bind, get_self, in_world, rmtree. simpl.
      rewrite Hs. simpl. rewrite Hdir. simpl. split; [done|].
      intros q Hq. rewrite remove_tree_lookup. by rewrite decide_True.
    + exfalso. rewrite import_and_simulate_enter, Henter in Hdir.
      simpl in Hdir. congruence.
    + exfalso. rewrite import_and_simulate_enter, Henter in Hdir.
      simpl in Hdir. congruence.
Qed.

Lemma run_then_cleanup_witness :
  (cleanup (example_host good_log) false
     (_import_and_simulate (example_host good_log)
        (example_sys (example_host good_log))).2).1 = Return tt
  /\ forall q,
       result_folder_path (self (example_sys (example_host good_log)))
         `prefix_of` q ->
       fs (world (cleanup (example_host good_log) false
                    (_import_and_simulate (example_host good_log)
                       (example_sys (example_host good_log))).2).2) !! q
       = None.
Proof.
  refine (proj2 (run_then_cleanup (example_host good_log)
                   (example_sys (example_host good_log)) false _) _ _).
  - reflexivity.
  - vm_compute. reflexivity.
  - vm_compute. reflexivity.
Defined.

(** ** What the methods do to the instance *)

Lemma same_settings_refl (t : RegressionTest) : same_settings t t.
Proof. by left. Qed.

Lemma same_settings_trans (t t' t'' : RegressionTest) :
  same_settings t t' -> same_settings t' t'' -> same_settings t t''.
Proof. intros [->| ->] [->| ->]; (by left) || (by right). Qed.

Lemma cleanup_self (H : Host) (ask : bool) : preserves self (cleanup H ask).
Proof. unfold cleanup. repeat frame_step. Qed.

Lemma import_and_simulate_settings (H : Host) (s : Sys) :
  same_settings (self s) (self (_import_and_simulate H s).2).
Proof.
  rewrite import_and_simulate_self, enter_result_folder_cases.
  destruct (fs (world s) !! result_folder_path (self s)) as [[|c]|];
    [by left..|].
  destruct (fs (world s) !! parent (result_folder_path (self s))) as [[|c]|];
    [by right | by left..].
Qed.

(** [compare_result], phase by phase. *)
Lemma compare_result_phases (H : Host) (reference_result : text)
    (precision : Z) (validated_cols : list text) (s : Sys) :
  compare_result H reference_result precision validated_cols s =
  match _import_and_simulate H (testing_announced s) with
  | (Raise e, s1) => (Raise e, s1)
  | (Return _, s1) =>
      match read_csv H reference_result
              (comparison_announced H reference_result s1) with
      | Raise e =>
          (Raise e, mkSys (self s1) (comparison_announced H reference_result s1))
      | Return ref_data =>
          match read_csv H (simulation_result H (self s1))
                  (comparison_announced H reference_result s1) with
          | Raise e =>
              (Raise e,
               mkSys (self s1) (comparison_announced H reference_result s1))
          | Return result_data =>
              ((compare_frames ref_data result_data precision validated_cols
                  (comparison_announced H reference_result s1)).1,
               mkSys (self s1)
                 (compare_frames ref_data result_data precision validated_cols
                    (comparison_announced H reference_result s1)).2)
          end
      end
  end.
Proof.
  unfold compare_result, testing_announced, comparison_announced,
    simulation_result, bind, get_self, in_world, print.
  simpl.
  destruct (_import_and_simulate H _) as [[[]|e] s1]; [|done]. simpl.
  destruct (read_csv H reference_result _) as [ref_data|e]; [|done].
  destruct (read_csv H _ _) as [result_data|e]; [|done].
  by destruct (compare_frames ref_data result_data precision validated_cols _).
Qed.

(** X6: the instance is immutable but for the flag.  Whatever happens,
    [_import_and_simulate] and [compare_result] leave the instance as it
    was or with [result_folder_created] set; [_run_model] and [cleanup]
    leave it as it was.  No method unsets the flag or changes a path, the
    model name or the tools. *)
Theorem instance_is_kept (H : Host) (s : Sys) :
  same_settings (self s) (self (_import_and_simulate H s).2)
  /\ (forall reference precision cols,
        same_settings (self s)
          (self (compare_result H reference precision cols s).2))
  /\ self (_run_model H s).2 = self s
  /\ (forall ask, self (cleanup H ask s).2 = self s).
Proof.
  split; [apply import_and_simulate_settings|]. split; [|split].
  - intros reference precision cols. rewrite compare_result_phases.
    pose proof (import_and_simulate_settings H (testing_announced s)) as Hs.
    destruct (_import_and_simulate H (testing_announced s)) as [[[]|e] s1];
      simpl in Hs; [|done].
    destruct (read_csv H reference _); [|done].
    by destruct (read_csv H (simulation_result H (self s1)) _).
  - apply run_model_self.
  - intros ask. apply cleanup_self.
Qed.

(** X7: [compare_result] runs the tool before it looks at any file of
    results.  An exception of the run leaves [compare_result] as it is,
    whatever the reference; a reference or a result that cannot be read is
    only found out after the run, whose effects stay; and when both are
    read, the method ends as the comparison of the two frames does. *)
Theorem compare_result_runs_first (H : Host) (reference : text)
    (precision : Z) (cols : list text) (s : Sys) :
  (forall e,
     (_import_and_simulate H (testing_announced s)).1 = Raise e ->
     compare_result H reference precision cols s
     = (Raise e, (_import_and_simulate H (testing_announced s)).2))
  /\ (forall e,
        (_import_and_simulate H (testing_announced s)).1 = Return tt ->
        read_csv H reference
          (comparison_announced H reference
             (_import_and_simulate H (testing_announced s)).2) = Raise e ->
        (compare_result H reference precision cols s).1 = Raise e
        /\ fs (world (compare_result H reference precision cols s).2)
           = fs (world (_import_and_simulate H (testing_announced s)).2)
        /\ self (compare_result H reference precision cols s).2
           = self (_import_and_simulate H (testing_announced s)).2)
  /\ (forall ref_data result_data,
        (_import_and_simulate H (testing_announced s)).1 = Return tt ->
        read_csv H reference
          (comparison_announced H reference
             (_import_and_simulate H (testing_announced s)).2)
        = Return ref_data ->
        read_csv H
          (simulation_result H
             (self (_import_and_simulate H (testing_announced s)).2))
          (comparison_announced H reference
             (_import_and_simulate H (testing_announced s)).2)
        = Return result_data ->
        (compare_result H reference precision cols s).1
        = (compare_frames ref_data result_data precision cols
             (comparison_announced H reference
                (_import_and_simulate H (testing_announced s)).2)).1).
Proof.
  rewrite compare_result_phases.
  destruct (_import_and_simulate H (testing_announced s)) as [[[]|e'] s1];
    simpl.
  - split; [done|]. split.
    + intros e _ Hread. by rewrite Hread.
    + intros ref_data result_data _ Href Hres. by rewrite Href, Hres.
  - split; [by intros e [= ->]|]. split; [done|]. done.
Qed.

(** ** How a comparison ends *)

Lemma compare_columns_is_outcome ref_data result_data precision cs (w : World) :
  (compare_columns ref_data result_data precision cs w).1
  = columns_outcome ref_data result_data precision cs.
Proof.
  revert w. induction cs as [|c cs IH]; intros w; [done|].
  rewrite compare_columns_cons. cbv zeta. simpl.
  destruct (getitem result_data c); [|done].
  destruct (getitem ref_data c); [|done].
  destruct (all_almost_equal _ _ _); [apply IH | done].
Qed.

Lemma compare_frames_explicit ref_data result_data precision cols (w : World) :
  cols <> [] ->
  (compare_frames ref_data result_data precision cols w).1
  = columns_outcome ref_data result_data precision cols.
Proof.
  intros Hne. destruct cols as [|c cs]; [done|].
  apply compare_columns_is_outcome.
Qed.

Lemma columns_outcome_app ref_data result_data precision pre cs :
  Forall (fun c => column_ok ref_data result_data precision c = true) pre ->
  columns_outcome ref_data result_data precision (pre ++ cs)
  = columns_outcome ref_data result_data precision cs.
Proof.
  induction 1 as [|c pre Hc _ IH]; [done|]. simpl.
  unfold column_ok in Hc.
  destruct (getitem result_data c); [|done].
  destruct (getitem ref_data c); [|done].
  by rewrite Hc.
Qed.

Lemma getitem_missing (d : DataFrame) (c : text) :
  c ∉ columns d -> getitem d c = Raise (KeyError c).
Proof.
  intros Hc. destruct (getitem d c) as [v|e] eqn:E.
  - destruct Hc. apply getitem_columns. by exists v.
  - clear Hc. induction d as [|[n v] d IH]; simpl in E; [done|].
    case_decide; [done | by apply IH].
Qed.

Lemma getitem_raise (d : DataFrame) (c : text) (e : exn) :
  getitem d c = Raise e -> e = KeyError c.
Proof.
  induction d as [|[n v] d IH]; simpl; [by intros [= <-]|].
  case_decide; [done | apply IH].
Qed.

(** X8: a listed column that one of the two frames does not have.  When
    the columns listed before it pass, the comparison raises [KeyError] for
    that column, whatever follows it in the list. *)
Theorem compare_missing_column (ref_data result_data : DataFrame)
    (precision : Z) (pre post : list text) (c : text) (w : World) :
  Forall (fun c' => column_ok ref_data result_data precision c' = true) pre ->
  c ∉ columns result_data \/ c ∉ columns ref_data ->
  (compare_frames ref_data result_data precision (pre ++ c :: post) w).1
  = Raise (KeyError c).
Proof.
  intros Hpre Hc.
  rewrite compare_frames_explicit by (by destruct pre).
  rewrite columns_outcome_app by done. simpl.
  destruct (getitem result_data c) as [actual|e] eqn:E.
  - destruct Hc as [Hc|Hc].
    + apply getitem_missing in Hc. congruence.
    + by rewrite (getitem_missing _ _ Hc).
  - by apply getitem_raise in E as ->.
Qed.

Lemma compare_missing_column_witness :
  (compare_frames reference_yz produced_y 7 ([] ++ str "z" :: [str "y"])
     (mkWorld ∅ [] [] [])).1
  = Raise (KeyError (str "z")).
Proof.
  refine (compare_missing_column reference_yz produced_y 7 [] [str "y"]
            (str "z") (mkWorld ∅ [] [] []) _ _).
  - constructor.
  - left. unfold produced_y, columns. simpl.
    intros [?|?%elem_of_nil]%elem_of_cons; [discriminate | done].
Defined.

Lemma all_almost_equal_length (decimal : Z) (actual desired : list Q) :
  all_almost_equal decimal actual desired = true ->
  length actual = length desired.
Proof. intros Hall%all_almost_equal_spec. by eapply Forall2_length. Qed.

(** X9: the rows are compared by position and their number must agree.
    A listed column with a different number of rows in the two frames
    raises [AssertionError] at every precision, once the columns listed
    before it have passed. *)
Theorem compare_row_count_mismatch (ref_data result_data : DataFrame)
    (precision : Z) (pre post : list text) (c : text)
    (actual desired : list Q) (w : World) :
  Forall (fun c' => column_ok ref_data result_data precision c' = true) pre ->
  getitem result_data c = Return actual ->
  getitem ref_data c = Return desired ->
  length actual <> length desired ->
  (compare_frames ref_data result_data precision (pre ++ c :: post) w).1
  = Raise AssertionError.
Proof.
  intros Hpre Ha Hd Hlen.
  rewrite compare_frames_explicit by (by destruct pre).
  rewrite columns_outcome_app by done. simpl. rewrite Ha, Hd.
  destruct (all_almost_equal precision actual desired) eqn:E; [|done].
  by apply all_almost_equal_length in E.
Qed.

Lemma compare_row_count_mismatch_witness :
  (compare_frames [(str "y", [1%Q; 2%Q])] [(str "y", [1%Q])] (-3)
     ([] ++ str "y" :: []) (mkWorld ∅ [] [] [])).1
  = Raise AssertionError.
Proof.
  refine (compare_row_count_mismatch [(str "y", [1%Q; 2%Q])]
            [(str "y", [1%Q])] (-3) [] [] (str "y") [1%Q] [1%Q; 2%Q]
            (mkWorld ∅ [] [] []) _ _ _ _).
  - constructor.
  - reflexivity.
  - reflexivity.
  - discriminate.
Defined.

Lemma tolerance_pos (decimal : Z) : (0 < tolerance decimal)%Q.
Proof.
  eapply Qlt_trans; [|apply tolerance_above]. by apply Qpower_0_lt.
Qed.

Lemma all_almost_equal_refl (decimal : Z) (xs : list Q) :
  all_almost_equal decimal xs xs = true.
Proof.
  induction xs as [|x xs IH]; [done|]. simpl.
  rewrite IH, andb_true_r. apply almost_equal_spec.
  assert (Qabs (x - x) == 0)%Q as ->; [|apply tolerance_pos].
  assert (x - x == 0)%Q as -> by ring. done.
Qed.

(** X10: a frame compared with itself passes, on the default columns and
    on any list of its own columns, at every precision for which the bound
    of numpy is a finite double above zero (from [-308] to [323], negative
    ones included).  Outside this range the double bound is no longer the
    exact one, and the statement is not made. *)
Theorem compare_with_itself (d : DataFrame) (precision : Z)
    (cols : list text) (w : World) :
  bound_in_range precision ->
  (forall c, c ∈ cols -> c ∈ columns d) ->
  (compare_frames d d precision cols w).1 = Return tt.
Proof.
  intros _ Hcols.
  assert (forall cs, (forall c, c ∈ cs -> c ∈ columns d) ->
            columns_outcome d d precision cs = Return tt) as Hall.
  { induction cs as [|c cs IH]; intros Hcs; [done|]. simpl.
    destruct (proj1 (getitem_columns d c)) as [v ->]; [apply Hcs; by left|].
    rewrite all_almost_equal_refl. apply IH. intros c' Hc'.
    apply Hcs. by right. }
  destruct cols as [|c cs].
  - unfold compare_frames. rewrite compare_columns_is_outcome.
    apply Hall. intros c Hc. by apply common_cols_spec in Hc as [? _].
  - rewrite compare_frames_explicit by done. by apply Hall.
Qed.

Lemma compare_with_itself_witness :
  (compare_frames produced_yz produced_yz 12 [str "z"] (mkWorld ∅ [] [] [])).1
  = Return tt.
Proof.
  refine (compare_with_itself produced_yz 12 [str "z"] (mkWorld ∅ [] [] [])
            _ _).
  - unfold bound_in_range. lia.
  - intros c ->%list_elem_of_singleton.
    unfold produced_yz, columns. simpl. apply elem_of_cons. right.
    apply elem_of_cons. by left.
Defined.

Lemma all_almost_equal_sym (decimal : Z) (xs ys : list Q) :
  all_almost_equal decimal xs ys = all_almost_equal decimal ys xs.
Proof.
  revert ys. induction xs as [|x xs IH]; intros [|y ys]; simpl; try done.
  rewrite IH. f_equal. unfold almost_equal. by rewrite Qabs_Qminus.
Qed.

Lemma column_ok_sym (a b : DataFrame) (precision : Z) (c : text) :
  column_ok a b precision c = column_ok b a precision c.
Proof.
  unfold column_ok.
  destruct (getitem a c), (getitem b c); try done.
  apply all_almost_equal_sym.
Qed.

Lemma columns_outcome_sym (a b : DataFrame) (precision : Z) (cs : list text) :
  columns_outcome a b precision cs = columns_outcome b a precision cs.
Proof.
  induction cs as [|c cs IH]; [done|]. simpl.
  destruct (getitem a c) as [x|e] eqn:Ea, (getitem b c) as [y|e'] eqn:Eb.
  - rewrite all_almost_equal_sym, IH. done.
  - done.
  - done.
  - apply getitem_raise in Ea as ->. by apply getitem_raise in Eb as ->.
Qed.

Lemma common_cols_perm (a b : DataFrame) : common_cols a b ≡ₚ common_cols b a.
Proof.
  apply NoDup_Permutation; [apply common_cols_NoDup..|].
  intros c. rewrite !common_cols_spec. tauto.
Qed.

(** X11: the verdict does not depend on which of the two files is taken
    as the reference.  With the frames exchanged the comparison ends in the
    same way, with the same exception if any, on the default columns and on
    any explicit list. *)
Theorem compare_symmetric (ref_data result_data : DataFrame) (precision : Z)
    (cols : list text) (w : World) :
  (compare_frames ref_data result_data precision cols w).1
  = (compare_frames result_data ref_data precision cols w).1.
Proof.
  destruct cols as [|c cs].
  - unfold compare_frames.
    rewrite !compare_columns_outcome.
    + assert (forallb (column_ok ref_data result_data precision)
                (common_cols ref_data result_data)
              = forallb (column_ok result_data ref_data precision)
                  (common_cols result_data ref_data)) as ->; [|done].
      apply eq_true_iff_eq. rewrite !forallb_forall.
      split; intros Hall c Hc; rewrite column_ok_sym; apply Hall;
        apply list_elem_of_In; apply list_elem_of_In in Hc;
        by rewrite common_cols_perm.
    + apply Forall_forall. intros c Hc.
      apply common_cols_spec in Hc. tauto.
    + apply Forall_forall. intros c. apply common_cols_spec.
  - rewrite !compare_frames_explicit by done. apply columns_outcome_sym.
Qed.

Lemma tolerance_mono (p q : Z) :
  (q <= p)%Z -> (tolerance p <= tolerance q)%Q.
Proof.
  intros Hqp. unfold tolerance.
  apply Qmult_le_l; [done|].
  apply Qpower_le_compat_l; [lia | done].
Qed.

Lemma all_almost_equal_mono (p q : Z) (actual desired : list Q) :
  (q <= p)%Z ->
  all_almost_equal p actual desired = true ->
  all_almost_equal q actual desired = true.
Proof.
  intros Hqp. rewrite !all_almost_equal_spec. intros Hall.
  eapply Forall2_impl; [exact Hall|]. simpl. intros x y Hxy.
  eapply Qlt_le_trans; [exact Hxy | by apply tolerance_mono].
Qed.

(** X12: a lower precision is never stricter.  Among the precisions for
    which the bound of numpy is a finite double above zero (from [-308] to
    [323]), a comparison that passes at a precision passes at every smaller
    one, on the same columns. *)
Theorem compare_precision_monotone (ref_data result_data : DataFrame)
    (p q : Z) (cols : list text) (w : World) :
  bound_in_range p -> bound_in_range q -> (q <= p)%Z ->
  (compare_frames ref_data result_data p cols w).1 = Return tt ->
  (compare_frames ref_data result_data q cols w).1 = Return tt.
Proof.
  intros _ _ Hqp. unfold compare_frames.
  rewrite !compare_columns_is_outcome.
  generalize (match cols with
              | [] => common_cols ref_data result_data
              | _ :: _ => cols
              end).
  induction l as [|c cs IH]; [done|]. simpl.
  destruct (getitem result_data c) as [actual|]; [|done].
  destruct (getitem ref_data c) as [desired|]; [|done].
  destruct (all_almost_equal p actual desired) eqn:E; [|done].
  by rewrite (all_almost_equal_mono p q actual desired Hqp E).
Qed.

Lemma compare_precision_monotone_witness :
  (compare_frames [(str "y", [1%Q])]
     [(str "y", [(100000012 # 100000000)%Q])] 3 [] (mkWorld ∅ [] [] [])).1
  = Return tt.
Proof.
  refine (compare_precision_monotone [(str "y", [1%Q])]
            [(str "y", [(100000012 # 100000000)%Q])] 7 3 []
            (mkWorld ∅ [] [] []) _ _ _ _).
  - unfold bound_in_range. lia.
  - unfold bound_in_range. lia.
  - lia.
  - vm_compute. reflexivity.
Defined.

(** ** Templating: errors, leftovers and repetition *)

(** X13: [_replace_in_file] reads and rewrites one file.  A missing file
    raises [FileNotFoundError] and a directory [IsADirectoryError], with
    nothing changed; otherwise it returns normally whatever the map holds,
    every other path, the working directory and the standard streams are
    as before, and with the empty map the file itself is as before. *)
Theorem replace_in_file_one_file (filename : path) (repl_dict : dict)
    (w : World) :
  match fs w !! filename with
  | None => _replace_in_file filename repl_dict w = (Raise FileNotFoundError, w)
  | Some Dir =>
      _replace_in_file filename repl_dict w = (Raise IsADirectoryError, w)
  | Some (File _) =>
      (_replace_in_file filename repl_dict w).1 = Return tt
      /\ (forall q, q <> filename ->
            fs (_replace_in_file filename repl_dict w).2 !! q = fs w !! q)
      /\ cwd (_replace_in_file filename repl_dict w).2 = cwd w
      /\ stdin (_replace_in_file filename repl_dict w).2 = stdin w
      /\ stdout (_replace_in_file filename repl_dict w).2 = stdout w
      /\ (repl_dict = [] -> (_replace_in_file filename repl_dict w).2 = w)
  end.
Proof.
  destruct (fs w !! filename) as [[|c]|] eqn:E.
  - unfold _replace_in_file, bind, read_file. by rewrite E.
  - rewrite (replace_in_file_result filename repl_dict c w E). simpl.
    split; [done|]. split.
    { intros q Hq. by apply lookup_insert_ne. }
    do 3 (split; [done|]). intros ->.
    unfold replace_all. simpl. rewrite insert_id by done. by destruct w.
  - unfold _replace_in_file, bind, read_file. by rewrite E.
Qed.

(** X14: a placeholder the map does not cover is left in the file, and no
    error tells of it.  A text that occurs in the template and that no
    token of the map can overlap still occurs in the file written. *)
Theorem uncovered_placeholder_stays (filename : path) (repl_dict : dict)
    (template x : text) (w : World) :
  fs w !! filename = Some (File template) ->
  Forall (fun k => k <> [] /\ apart x k) (tokens repl_dict) ->
  Py.occurs x template ->
  (_replace_in_file filename repl_dict w).1 = Return tt
  /\ exists out,
       fs (_replace_in_file filename repl_dict w).2 !! filename
       = Some (File out)
       /\ Py.occurs x out.
Proof.
  intros Hfile Htokens Hocc.
  rewrite (replace_in_file_result filename repl_dict template w Hfile). simpl.
  split; [done|]. eexists. split; [apply lookup_insert_eq|].
  by apply replace_all_keeps_occurrence.
Qed.

Lemma uncovered_placeholder_stays_witness :
  (_replace_in_file script
     [(str "START_TIME", str "0.0"); (str "STOP_TIME", str "1.0")]
     times_world).1 = Return tt
  /\ exists out,
       fs (_replace_in_file script
             [(str "START_TIME", str "0.0"); (str "STOP_TIME", str "1.0")]
             times_world).2 !! script
       = Some (File out)
       /\ Py.occurs (str "TOLERANCE") out.
Proof.
  refine (uncovered_placeholder_stays script
            [(str "START_TIME", str "0.0"); (str "STOP_TIME", str "1.0")]
            times_template (str "TOLERANCE") times_world _ _ _).
  - vm_compute. reflexivity.
  - apply (bool_decide_unpack _). vm_compute. exact I.
  - apply (bool_decide_unpack _). vm_compute. exact I.
Defined.

Lemma replace_all_absent (d : dict) (s : text) :
  Forall (fun k => k <> []) (tokens d) ->
  (forall k, k ∈ tokens d -> ~ Py.occurs k s) ->
  replace_all d s = s.
Proof.
  induction d as [|[k v] d IH]; intros Hne Hno; [done|].
  simpl in Hne. apply Forall_cons in Hne as [Hk Hks].
  rewrite replace_all_cons, replace_absent; [|done|].
  - apply IH; [done|]. intros k' Hk'. apply Hno. simpl. by right.
  - apply Hno. simpl. by left.
Qed.

(** X15: templating a file a second time with the same map changes
    nothing, when the map is [separated]: the second call returns normally
    and leaves the environment exactly as the first one did. *)
Theorem replace_in_file_twice (filename : path) (repl_dict : dict)
    (template : text) (w : World) :
  fs w !! filename = Some (File template) ->
  separated repl_dict ->
  _replace_in_file filename repl_dict
    (_replace_in_file filename repl_dict w).2
  = (Return tt, (_replace_in_file filename repl_dict w).2).
Proof.
  intros Hfile Hsep.
  rewrite (replace_in_file_result filename repl_dict template w Hfile). simpl.
  rewrite (replace_in_file_result filename repl_dict
             (replace_all repl_dict template)); [|apply lookup_insert_eq].
  rewrite replace_all_absent.
  - simpl. rewrite insert_insert_eq. done.
  - apply Hsep.
  - by apply replace_all_removes.
Qed.

Lemma replace_in_file_twice_witness :
  _replace_in_file script times_dict
    (_replace_in_file script times_dict times_world).2
  = (Return tt, (_replace_in_file script times_dict times_world).2).
Proof.
  refine (replace_in_file_twice script times_dict times_template
            times_world _ _).
  - vm_compute. reflexivity.
  - apply (bool_decide_unpack _). vm_compute. exact I.
Defined.

(** ** The order of the mapping *)

Section commuting.
Context {A : Type} `{!EqDecision A}.
Implicit Types k v s x : list A.

(** The scan copies a text that [k] cannot overlap. *)
Lemma replace_through k v x s :
  k <> [] -> ~ clash x k -> Py.replace k v (x ++ s) = x ++ Py.replace k v s.
Proof.
  intros Hk. induction x as [|c x IH]; intros Hno; [done|].
  rewrite <- app_comm_cons, replace_skip; [|done|].
  - simpl. f_equal. apply IH. intros Hc. by apply Hno, clash_cons.
  - rewrite app_comm_cons.
    apply (no_clash_no_match (c :: x)); [done..|by eexists].
Qed.

(** Two replacements whose tokens and values cannot overlap commute. *)
Lemma replace_comm k1 v1 k2 v2 s :
  k1 <> [] -> v1 <> [] -> k2 <> [] -> v2 <> [] ->
  apart k1 k2 -> apart k1 v2 -> apart k2 v1 ->
  Py.replace k2 v2 (Py.replace k1 v1 s) = Py.replace k1 v1 (Py.replace k2 v2 s).
Proof.
  intros Hk1 Hv1 Hk2 Hv2 [Hk12 Hk21] [Hk1v2 Hv2k1] [Hk2v1 Hv1k2].
  remember (length s) as n eqn:Hn. revert s Hn.
  induction n as [n IH] using lt_wf_ind. intros s ->.
  destruct s as [|c s]; [by rewrite !replace_nil|].
  destruct (decide (k1 `prefix_of` c :: s)) as [[t Ht]|Hno1].
  - rewrite Ht. rewrite (replace_match k1) by done.
    rewrite (replace_through k2 v2 v1), (replace_through k2 v2 k1) by done.
    rewrite (replace_match k1) by done.
    f_equal. apply (IH (length t)); [|done].
    rewrite Ht, length_app. destruct k1; [done|]. simpl. lia.
  - destruct (decide (k2 `prefix_of` c :: s)) as [[t Ht]|Hno2].
    + rewrite Ht. rewrite (replace_match k2) by done.
      rewrite (replace_through k1 v1 v2), (replace_through k1 v1 k2) by done.
      rewrite (replace_match k2) by done.
      f_equal. apply (IH (length t)); [|done].
      rewrite Ht, length_app. destruct k2; [done|]. simpl. lia.
    + rewrite (replace_skip k1 v1 c s), (replace_skip k2 v2 c s) by done.
      rewrite (replace_skip k2 v2 c (Py.replace k1 v1 s)),
        (replace_skip k1 v1 c (Py.replace k2 v2 s)).
      * f_equal. apply (IH (length s)); [simpl; lia | done].
      * done.
      * intros Hpre. apply Hno1.
        rewrite <- (replace_skip k2 v2) in Hpre by done.
        by apply (replace_prefix_inv k2 v2).
      * done.
      * intros Hpre. apply Hno2.
        rewrite <- (replace_skip k1 v1) in Hpre by done.
        by apply (replace_prefix_inv k1 v1).
Qed.

End commuting.

Lemma separated_elements (d : dict) :
  separated d <->
  (forall k, k ∈ tokens d -> k <> [])
  /\ (forall v, v ∈ values d -> v <> [])
  /\ (forall k v, k ∈ tokens d -> v ∈ values d -> apart k v).
Proof.
  unfold separated. rewrite !Forall_forall.
  split; intros (Hk & Hv & Hkv); (split; [done|]; split; [done|]).
  - intros k v Hin Hvin.
    by apply (proj1 (Forall_forall _ _) (Hkv k Hin)).
  - intros k Hin. apply Forall_forall. intros v Hvin. by apply Hkv.
Qed.

Lemma separated_perm (d d' : dict) : d ≡ₚ d' -> separated d -> separated d'.
Proof.
  intros Hperm. rewrite !separated_elements. unfold tokens, values.
  intros (Hk & Hv & Hkv).
  pose proof (Permutation_map fst Hperm) as Hfst.
  pose proof (Permutation_map snd Hperm) as Hsnd.
  split; [|split].
  - intros k Hin. apply Hk. by rewrite Hfst.
  - intros v Hin. apply Hv. by rewrite Hsnd.
  - intros k v Hin Hvin. apply Hkv; [by rewrite Hfst | by rewrite Hsnd].
Qed.

Lemma pairwise_perm {X} (R : X -> X -> Prop) (l l' : list X) :
  (forall x y, R x y -> R y x) -> l ≡ₚ l' -> pairwise R l -> pairwise R l'.
Proof.
  intros Hsym. induction 1 as [|x l l' Hperm IH|x y l|l l' l'' _ IH1 _ IH2];
    simpl.
  - done.
  - intros [Hx Hl]. split; [by rewrite <- Hperm | by apply IH].
  - intros [Hy [Hx Hl]]. apply Forall_cons in Hy as [Hyx Hy].
    split; [|done]. constructor; [by apply Hsym | done].
  - intros Hl. by apply IH2, IH1.
Qed.

Lemma tokens_apart_perm (d d' : dict) :
  d ≡ₚ d' -> tokens_apart d -> tokens_apart d'.
Proof.
  intros Hperm. apply pairwise_perm.
  - intros x y. apply apart_sym.
  - by apply Permutation_map.
Qed.

Lemma replace_all_perm (d d' : dict) :
  d ≡ₚ d' -> separated d -> tokens_apart d ->
  forall s, replace_all d' s = replace_all d s.
Proof.
  induction 1 as [|[k v] d d' Hperm IH|[k1 v1] [k2 v2] d
                  |d d' d'' Hperm1 IH1 Hperm2 IH2]; intros Hsep Hap s.
  - done.
  - rewrite !replace_all_cons. apply IH.
    + by apply separated_cons_inv in Hsep as (_ & _ & _ & _ & _ & ?).
    + by destruct Hap.
  - rewrite !replace_all_cons. f_equal.
    apply separated_elements in Hsep as (Hk & Hv & Hkv).
    destruct Hap as [Hap _]. apply Forall_cons in Hap as [Hap _].
    unfold tokens, values in *. simpl in *.
    apply replace_comm.
    + apply Hk. by right; left.
    + apply Hv. by right; left.
    + apply Hk. by left.
    + apply Hv. by left.
    + by apply apart_sym.
    + apply Hkv; [by right; left | by left].
    + apply Hkv; [by left | by right; left].
  - rewrite IH2, IH1; [done..| |].
    + by apply (separated_perm d).
    + by apply (tokens_apart_perm d).
Qed.

(** X16: the order in which the mapping is iterated does not matter when
    the map is [separated] and no two of its tokens can overlap.  The file
    written is the same for every ordering of the same items. *)
Theorem replace_in_file_any_order (filename : path) (d d' : dict)
    (template : text) (w : World) :
  fs w !! filename = Some (File template) ->
  separated d -> tokens_apart d -> d ≡ₚ d' ->
  _replace_in_file filename d' w = _replace_in_file filename d w.
Proof.
  intros Hfile Hsep Hap Hperm.
  rewrite !(replace_in_file_result _ _ template) by done.
  by rewrite (replace_all_perm d d').
Qed.

Lemma replace_in_file_any_order_witness :
  _replace_in_file script (rev times_dict) times_world
  = _replace_in_file script times_dict times_world.
Proof.
  refine (replace_in_file_any_order script times_dict (rev times_dict)
            times_template times_world _ _ _ _).
  - vm_compute. reflexivity.
  - apply (bool_decide_unpack _). vm_compute. exact I.
  - apply (bool_decide_unpack _). vm_compute. exact I.
  - apply Permutation_rev.
Defined.

(** ** Writing the simulation options and reading them back *)

Lemma split_none {A} `{!EqDecision A} (sep : A) (f : list A) :
  sep ∉ f -> Py.split sep f = [f].
Proof.
  induction f as [|c f IH]; [done|]. intros [Hc Hf]%not_elem_of_cons. simpl.
  rewrite decide_False by done. by rewrite IH.
Qed.

Lemma split_app_sep {A} `{!EqDecision A} (sep : A) (f r : list A) :
  sep ∉ f -> Py.split sep (f ++ sep :: r) = f :: Py.split sep r.
Proof.
  induction f as [|c f IH]; simpl.
  - intros _. by rewrite decide_True.
  - intros [Hc Hf]%not_elem_of_cons.
    rewrite decide_False by done. by rewrite IH.
Qed.

Lemma split_join {A} `{!EqDecision A} (sep : A) (fields : list (list A)) :
  fields <> [] -> Forall (fun f => sep ∉ f) fields ->
  Py.split sep (Py.join [sep] fields) = fields.
Proof.
  intros Hne Hall. induction Hall as [|f fields Hf Hall IH]; [done|].
  destruct fields as [|g fields].
  - simpl. by apply split_none.
  - change (Py.join [sep] (f :: g :: fields))
      with (f ++ sep :: Py.join [sep] (g :: fields)).
    rewrite split_app_sep by done. by rewrite IH.
Qed.

(** A line of five fields between parentheses is read back as written. *)
Lemma simulation_options_fields (lines : list text) (opens closes : text)
    (a b c d e : text) :
  Forall (fun f => ","%char ∉ f) [a; b; c; d; e] ->
  head a <> Some "("%char -> last e <> Some ")"%char ->
  Forall (fun x => x = "("%char) opens ->
  Forall (fun x => x = ")"%char) closes ->
  simulation_options
    (lines ++ [opens ++ Py.join [","%char] [a; b; c; d; e] ++ closes])
  = Return (a, b, c, d, e).
Proof.
  intros Hsep Ha He Hopens Hcloses.
  unfold simulation_options. rewrite last_snoc.
  set (body := Py.join [","%char] [a; b; c; d; e]).
  assert (exists x rest, body = x :: rest /\ Py.is_char "(" x = false)
    as (x & rest & Hbody & Hx).
  { unfold body. destruct a as [|x a]; simpl.
    - by eexists _, _.
    - eexists _, _. split; [done|].
      apply bool_decide_eq_false. intros ->. by apply Ha. }
  assert (exists front y, body = front ++ [y] /\ Py.is_char ")" y = false)
    as (front & y & Hlast & Hy).
  { unfold body. simpl.
    destruct (decide (e = [])) as [->|Hne].
    - exists (a ++ ","%char :: b ++ ","%char :: c ++ ","%char :: d), ","%char.
      split; [|done]. by repeat (rewrite <- app_assoc; simpl).
    - destruct (exists_last Hne) as (e' & y & ->).
      exists (a ++ ","%char :: b ++ ","%char :: c ++ ","%char :: d
                ++ ","%char :: e'), y.
      split; [by repeat (rewrite <- app_assoc; simpl)|].
      apply bool_decide_eq_false. intros ->. apply He. by rewrite last_snoc. }
  rewrite lstrip_app_all
    by (eapply Forall_impl; [exact Hopens|]; by intros ? ->).
  rewrite Hbody, <- app_comm_cons, lstrip_keep by done.
  rewrite app_comm_cons, <- Hbody, rstrip_app, rstrip_all
    by (eapply Forall_impl; [exact Hcloses|]; by intros ? ->).
  rewrite Hlast, rstrip_keep, <- Hlast by done.
  unfold body. by rewrite split_join.
Qed.

(** X17: the options line read back.  For five fields without a comma,
    the first not beginning with ['('] and the last not ending in [')'],
    a last line ["(a,b,c,d,e)"] gives back the five fields.  When the line
    still has its newline, the first four fields come back as written and
    the fifth comes with the [')'] and the newline. *)
Theorem simulation_options_round_trip (lines : list text) (a b c d e : text) :
  Forall (fun f => ","%char ∉ f) [a; b; c; d; e] ->
  head a <> Some "("%char -> last e <> Some ")"%char ->
  simulation_options
    (lines ++ [str "(" ++ Py.join [","%char] [a; b; c; d; e] ++ str ")"])
  = Return (a, b, c, d, e)
  /\ simulation_options
       (lines ++ [str "(" ++ Py.join [","%char] [a; b; c; d; e] ++ str ")"
                    ++ [nl]])
     = Return (a, b, c, d, e ++ str ")" ++ [nl]).
Proof.
  intros Hsep Ha He. split.
  - apply simulation_options_fields;
      [done | done | done | by repeat constructor | by repeat constructor].
  - replace (Py.join [","%char] [a; b; c; d; e] ++ str ")" ++ [nl])
      with (Py.join [","%char] [a; b; c; d; e ++ str ")" ++ [nl]] ++ [])
      by (simpl; rewrite app_nil_r; by repeat (rewrite <- app_assoc; simpl)).
    apply simulation_options_fields; [| done | | by repeat constructor
                                      | constructor].
    + repeat (apply Forall_cons in Hsep as [? Hsep]).
      repeat (constructor; [done|]). constructor; [|done].
      rewrite !elem_of_app. intros [?|[Hin|Hin]]; [done| |].
      * by apply list_elem_of_singleton in Hin.
      * by apply list_elem_of_singleton in Hin.
    + rewrite app_assoc, last_snoc. done.
Qed.

Lemma simulation_options_round_trip_witness :
  simulation_options
    ([str "true"] ++ [str "(" ++ Py.join [","%char]
        [str "0.0"; str "1.0"; str "1e-06"; str "500"; str "0.002"]
        ++ str ")"])
  = Return (str "0.0", str "1.0", str "1e-06", str "500", str "0.002")
  /\ simulation_options
       ([str "true"] ++ [str "(" ++ Py.join [","%char]
           [str "0.0"; str "1.0"; str "1e-06"; str "500"; str "0.002"]
           ++ str ")" ++ [nl]])
     = Return (str "0.0", str "1.0", str "1e-06", str "500",
               str "0.002" ++ str ")" ++ [nl]).
Proof.
  refine (simulation_options_round_trip [str "true"] (str "0.0") (str "1.0")
            (str "1e-06") (str "500") (str "0.002") _ _ _).
  - apply (bool_decide_unpack _). vm_compute. exact I.
  - discriminate.
  - discriminate.
Defined.

(** ** A template that is not there *)

Lemma copy_missing (src dst : path) (w : World) :
  fs w !! src = None -> src <> dst -> src <> dst ++ option_list (last src) ->
  copy src dst w = (Raise FileNotFoundError, w).
Proof.
  intros Hsrc H1 H2. unfold copy.
  rewrite decide_False by (by destruct (fs w !! dst) as [[]|]).
  unfold bind, read_file. by rewrite Hsrc.
Qed.

(** The import template of [omc] and the script it is copied to. *)
Lemma import_template_path (p : path) :
  joinpath p (str "omc" ++ str "/model_import.mos.template")
  = (p ++ [str "omc"]) ++ [str "model_import.mos.template"].
Proof. by rewrite <- app_assoc. Qed.

Lemma import_script_path (p : path) :
  joinpath p (str "model_import.mos") = p ++ [str "model_import.mos"].
Proof. done. Qed.

(** A tool other than [omc] is announced, and that is all. *)
Lemma run_tool_other (H : Host) (tool : text) (s : Sys) :
  tool <> str "omc" ->
  (run_tool H tool s).1 = Return tt
  /\ self (run_tool H tool s).2 = self s
  /\ fs (world (run_tool H tool s).2) = fs (world s)
  /\ cwd (world (run_tool H tool s).2) = cwd (world s)
  /\ stdin (world (run_tool H tool s).2) = stdin (world s).
Proof.
  intros Hne. unfold run_tool, bind, get_self, in_world, print. simpl.
  by rewrite decide_False.
Qed.

(** [omc] without its import template: the first copy fails, before
    anything is written. *)
Lemma run_tool_missing_template (H : Host) (s : Sys) :
  fs (world s) !! joinpath (template_folder_path (self s))
                    (str "omc/model_import.mos.template") = None ->
  (run_tool H (str "omc") s).1 = Raise FileNotFoundError
  /\ self (run_tool H (str "omc") s).2 = self s
  /\ fs (world (run_tool H (str "omc") s).2) = fs (world s)
  /\ cwd (world (run_tool H (str "omc") s).2) = cwd (world s)
  /\ stdin (world (run_tool H (str "omc") s).2) = stdin (world s).
Proof.
  intros Hsrc.
  change (str "omc/model_import.mos.template")
    with (str "omc" ++ str "/model_import.mos.template") in Hsrc.
  assert (exists w', run_tool H (str "omc") s
                     = (Raise FileNotFoundError, mkSys (self s) w')
                     /\ fs w' = fs (world s) /\ cwd w' = cwd (world s)
                     /\ stdin w' = stdin (world s)) as (w' & E & ?).
  { exists (with_stdout
              (stdout (world s)
                 ++ [(str "Using simulation tool "
                        ++ (if is_windows H then str "omc" ++ str ".exe"
                            else str "omc")) ++ [nl]])
              (world s)).
    split; [|done].
    unfold run_tool. unfold bind at 1. unfold get_self. unfold bind at 1.
    unfold in_world at 1, print. cbv beta iota zeta.
    rewrite decide_True by done. unfold in_world. unfold bind at 1.
    cbn [world self].
    rewrite copy_missing; [reflexivity|done| |].
    - rewrite import_template_path, import_script_path.
      intros [_ [=]]%app_inj_tail.
    - rewrite import_template_path, import_script_path, last_snoc.
      cbn [option_list].
      intros [[_ [=]]%app_inj_tail _]%app_inj_tail. }
  by rewrite E.
Qed.

Lemma run_tools_missing_template (H : Host) (ts : list text) (s : Sys) :
  str "omc" ∈ ts ->
  fs (world s) !! joinpath (template_folder_path (self s))
                    (str "omc/model_import.mos.template") = None ->
  (for_each ts (run_tool H) s).1 = Raise FileNotFoundError
  /\ self (for_each ts (run_tool H) s).2 = self s
  /\ fs (world (for_each ts (run_tool H) s).2) = fs (world s)
  /\ cwd (world (for_each ts (run_tool H) s).2) = cwd (world s)
  /\ stdin (world (for_each ts (run_tool H) s).2) = stdin (world s).
Proof.
  revert s. induction ts as [|tool ts IH]; intros s Hin Hsrc.
  - by apply elem_of_nil in Hin.
  - cbn [for_each]. unfold bind.
    destruct (decide (tool = str "omc")) as [->|Hne].
    + destruct (run_tool_missing_template H s Hsrc) as (Ho & Hrest).
      destruct (run_tool H (str "omc") s) as [o s1]. simpl in Ho. by subst o.
    + apply elem_of_cons in Hin as [?|Hin]; [done|].
      destruct (run_tool_other H tool s Hne) as (Ho & Hself & Hfs & Hcwd & Hin').
      destruct (run_tool H tool s) as [o s1]. simpl in *. subst o.
      destruct (IH s1 Hin) as (? & -> & -> & -> & ->); [by rewrite Hself, Hfs|].
      done.
Qed.

(** X18: a run without the import template of [omc].  When [omc] is among
    the tools and its import template is not in the template folder,
    [_run_model] raises [FileNotFoundError] at the first copy: no script was
    written, no command was run, and the file system, the current directory
    and the instance are as before. *)
Theorem run_model_missing_template (H : Host) (s : Sys) :
  str "omc" ∈ tools (self s) ->
  fs (world s) !! joinpath (template_folder_path (self s))
                    (str "omc/model_import.mos.template") = None ->
  (_run_model H s).1 = Raise FileNotFoundError
  /\ self (_run_model H s).2 = self s
  /\ fs (world (_run_model H s).2) = fs (world s)
  /\ cwd (world (_run_model H s).2) = cwd (world s)
  /\ stdin (world (_run_model H s).2) = stdin (world s).
Proof.
  intros Hin Hsrc. unfold _run_model, bind, get_self.
  by apply run_tools_missing_template.
Qed.

Lemma run_model_missing_template_witness :
  let s := mkSys (mkRegressionTest [str "opt"; str "templates"]
                    [str "home"; str "lib"] (str "Sine")
                    [str "home"; str "out"] [str "home"]
                    [str "dymola"; str "omc"] false)
             example_world in
  (_run_model (example_host good_log) s).1 = Raise FileNotFoundError
  /\ self (_run_model (example_host good_log) s).2 = self s
  /\ fs (world (_run_model (example_host good_log) s).2) = fs (world s)
  /\ cwd (world (_run_model (example_host good_log) s).2) = cwd (world s)
  /\ stdin (world (_run_model (example_host good_log) s).2) = stdin (world s).
Proof.
  refine (run_model_missing_template (example_host good_log) _ _ _).
  - apply list_elem_of_further, list_elem_of_here.
  - vm_compute. reflexivity.
Defined.

(** ** A run that fails *)

Lemma same_failure_refl {S A} (m : M S A) : same_failure m m.
Proof. by intros s e _. Qed.

Lemma same_failure_bind {S A B} (a : M S A) (k k' : A -> M S B) :
  (forall x, same_failure (k x) (k' x)) ->
  same_failure (bind a k) (bind a k').
Proof.
  intros Hk s e. unfold bind.
  destruct (a s) as [[x|e'] s1]; [apply Hk|done].
Qed.

Lemma same_failure_in_world {A} (m m' : M World A) :
  same_failure m m' -> same_failure (in_world m) (in_world m').
Proof.
  intros Hm s e. unfold in_world. specialize (Hm (world s) e).
  destruct (m (world s)) as [o w]. simpl. intros ->. by rewrite Hm.
Qed.

(** X19: a run that fails has not run the simulation.  Let the host be
    changed in what the command of line 248 does, and in nothing else.
    Wherever [run_tool] ends by an exception, it ends by the same exception
    in the same state on the changed host: every failure comes before that
    command, and nothing after it can fail. *)
Theorem run_tool_fails_before_simulating (H : Host)
    (sys : text -> path -> gmap path node -> gmap path node)
    (tool : text) (s : Sys) (e : exn) :
  (forall cmd, cmd <> simulate_command H tool -> sys cmd = os_system H cmd) ->
  (run_tool H tool s).1 = Raise e ->
  run_tool (with_os_system sys H) tool s = run_tool H tool s.
Proof.
  intros Hsys. revert s e.
  change (same_failure (run_tool H tool) (run_tool (with_os_system sys H) tool)).
  unfold run_tool, is_windows, with_os_system.
  cbn [platform_system os_system].
  fold (is_windows H).
  rewrite (Hsys ((if is_windows H then tool ++ str ".exe" else tool)
                   ++ str " " ++ str "model_import.mos" ++ str " > "
                   ++ tool ++ str "_output.txt")).
  2: { unfold simulate_command. intros Heq%app_inv_head. discriminate. }
  apply same_failure_bind. intros t.
  apply same_failure_bind. intros _.
  case_decide; [|apply same_failure_refl].
  apply same_failure_in_world.
  do 6 (apply same_failure_bind; intros ?).
  apply same_failure_bind. intros opts.
  destruct opts as [[[[start_time stop_time] tol] num_intervals] interval].
  apply same_failure_bind. intros _.
  intros w e' Hraise. discriminate.
Qed.

Lemma run_tool_fails_before_simulating_witness :
  let H := example_host bad_log in
  let s := (enter_result_folder (example_sys H)).2 in
  run_tool
    (with_os_system
       (fun cmd => if decide (cmd = simulate_command H (str "omc"))
                   then fun _ _ => ∅ else os_system H cmd) H)
    (str "omc") s
  = run_tool H (str "omc") s.
Proof.
  refine (run_tool_fails_before_simulating (example_host bad_log) _
            (str "omc") _ ValueError _ _).
  - intros cmd Hne. by rewrite decide_False.
  - vm_compute. reflexivity.
Defined.
